(** * ai-portfolio: the retrieval-augmented generation service

    A shallow embedding of [backend/app/services/rag_service.py] and of the
    chat endpoint of [backend/app/api/v1/endpoints/chat.py].

    Python strings are [string]s read as ASCII text.  Methods that print,
    call the language model or the embedder, assign a field of the service
    singleton or raise are computations of the monad [Py]: they pass a
    [World] along and end in [Return] or in [Raise]. *)

From Stdlib Require Import String Ascii List Bool Arith Lia QArith
  Sorted Permutation DecimalString.
From Equations Require Import Equations.
Import ListNotations.
Close Scope Q_scope.
Open Scope list_scope.
Open Scope string_scope.
Open Scope nat_scope.

(* ===================================================================== *)
(** ** Python strings *)
(* ===================================================================== *)

Module PyStr.

Definition dq : string := String (ascii_of_nat 34) EmptyString.
Definition nl : string := String (ascii_of_nat 10) EmptyString.

(** [str.isspace] on ASCII: tab, line feed, vertical tab, form feed,
    carriage return, the four separators 28..31 and the blank. *)
Definition is_space (c : ascii) : bool :=
  let n := nat_of_ascii c in
  ((9 <=? n) && (n <=? 13)) || ((28 <=? n) && (n <=? 32)).

Definition is_upper (c : ascii) : bool :=
  let n := nat_of_ascii c in (65 <=? n) && (n <=? 90).

Definition lower_char (c : ascii) : ascii :=
  if is_upper c then ascii_of_nat (nat_of_ascii c + 32) else c.

(** [s.lower()] *)
Fixpoint lower (s : string) : string :=
  match s with
  | EmptyString => EmptyString
  | String c s' => String (lower_char c) (lower s')
  end.

(** [s.lstrip()] *)
Fixpoint lstrip (s : string) : string :=
  match s with
  | EmptyString => EmptyString
  | String c s' => if is_space c then lstrip s' else s
  end.

(** [s.rstrip()] *)
Fixpoint rstrip (s : string) : string :=
  match s with
  | EmptyString => EmptyString
  | String c s' =>
      match rstrip s' with
      | EmptyString => if is_space c then EmptyString else String c EmptyString
      | r => String c r
      end
  end.

(** [s.strip()] *)
Definition strip (s : string) : string := lstrip (rstrip s).

(** [needle in s] *)
Fixpoint contains (needle s : string) : bool :=
  String.prefix needle s
  || match s with
     | EmptyString => false
     | String _ s' => contains needle s'
     end.

(** [sep.join(l)] *)
Fixpoint join (sep : string) (l : list string) : string :=
  match l with
  | [] => EmptyString
  | [x] => x
  | x :: rest => x ++ sep ++ join sep rest
  end.

(** [s[:n]] and [s[n:]] *)
Fixpoint take (n : nat) (s : string) : string :=
  match n, s with
  | S n', String c s' => String c (take n' s')
  | _, _ => EmptyString
  end.

Fixpoint drop (n : nat) (s : string) : string :=
  match n, s with
  | S n', String _ s' => drop n' s'
  | _, _ => s
  end.

(** [str(n)] for a length *)
Definition str_of_nat (n : nat) : string :=
  NilEmpty.string_of_uint (Nat.to_uint n).

(** A needle whose first character is not white space. *)
Definition starts_solid (needle : string) : bool :=
  match needle with
  | EmptyString => false
  | String a _ => negb (is_space a)
  end.

(** A needle whose last character is not white space. *)
Fixpoint ends_solid (needle : string) : bool :=
  match needle with
  | EmptyString => false
  | String a EmptyString => negb (is_space a)
  | String _ rest => ends_solid rest
  end.

End PyStr.

(* ===================================================================== *)
(** ** Documents, embedding vectors and the vector index *)
(* ===================================================================== *)

(** [langchain.docstore.document.Document]: a body and its metadata.  A
    chunk is a [Document] too: the splitter returns documents. *)
Record Document : Type := mkDocument {
  page_content : string;
  metadata : list (string * string)
}.

(** An embedding vector.  The floating-point components are read as
    rationals, so that distances are totally ordered. *)
Definition Vector : Type := list Q.

Fixpoint l2_squared (u v : Vector) : Q :=
  match u, v with
  | x :: u', y :: v' => ((x - y) * (x - y) + l2_squared u' v')%Q
  | _, _ => 0%Q
  end.

(** The FAISS store: its distance metric and the stored
    (vector, chunk) pairs in insertion order. *)
Record FAISS : Type := mkFAISS {
  metric : Vector -> Vector -> Q;
  docstore : list (Vector * Document)
}.

(** What [as_retriever()] returns: the store and the number of results
    asked for. *)
Record VectorStoreRetriever : Type := mkRetriever {
  vectorstore : FAISS;
  search_k : nat
}.

Module VectorIndex.

(** Modelled from the spec: the Vector Index query of the FAISS library,
    which is not part of the repository.  "Returns the k Chunks whose
    vectors are closest under a defined distance metric, ordered
    nearest-first.  Ties broken by original insertion order.  k larger
    than the index population returns all available Chunks without
    error."  A stable insertion sort by distance. *)
Fixpoint insert_nearest (key : Vector * Document -> Q)
    (x : Vector * Document) (l : list (Vector * Document))
    : list (Vector * Document) :=
  match l with
  | [] => [x]
  | y :: l' =>
      if Qle_bool (key x) (key y) then x :: y :: l'
      else y :: insert_nearest key x l'
  end.

Fixpoint nearest_first (key : Vector * Document -> Q)
    (l : list (Vector * Document)) : list (Vector * Document) :=
  match l with
  | [] => []
  | x :: l' => insert_nearest key x (nearest_first key l')
  end.

Definition distance_to (index : FAISS) (query : Vector)
    (entry : Vector * Document) : Q :=
  metric index query (fst entry).

(** Modelled from the spec: the query of the Vector Index, the first [k]
    entries of the store ordered nearest-first. *)
Definition search (index : FAISS) (query : Vector) (k : nat)
    : list (Vector * Document) :=
  firstn k (nearest_first (distance_to index query) (docstore index)).

(** Nearest-first: every entry is at most as far as those after it. *)
Definition near_to_far (key : Vector * Document -> Q)
    : list (Vector * Document) -> Prop :=
  StronglySorted (fun a b => (key a <= key b)%Q).

Definition similarity_search_by_vector (index : FAISS) (query : Vector)
    (k : nat) : list Document :=
  map snd (search index query k).

(** Modelled from the spec: [as_retriever()] without arguments asks for
    the "top-k (configurable, default small constant, e.g., 4)" nearest
    chunks; four is the default of the library. *)
Definition default_k : nat := 4.

Definition as_retriever (index : FAISS) : VectorStoreRetriever :=
  {| vectorstore := index; search_k := default_k |}.

End VectorIndex.

(* ===================================================================== *)
(** ** The chunker *)
(* ===================================================================== *)

Module Chunker.
Import PyStr.

(** Modelled from the spec: the text splitter of the langchain library,
    which is not part of the repository.  "Splits raw documents into
    overlapping fixed-size text segments"; a chunk is "a contiguous
    substring of a Document's body bounded by a maximum length, with a
    configurable overlap with its predecessor".  A window of
    [chunk_size] characters advances by [chunk_size - chunk_overlap];
    an empty body has no chunk. *)
Equations? split_text (chunk_size chunk_overlap : nat) (body : string)
    : list string by wf (String.length body) lt :=
  split_text chunk_size chunk_overlap body with
      le_lt_dec (String.length body) chunk_size := {
    | left _ with body := {
        | EmptyString := []
        | _ := [body] }
    | right _ with le_lt_dec chunk_size chunk_overlap := {
        | left _ := [body]
        | right _ :=
            take chunk_size body
            :: split_text chunk_size chunk_overlap
                 (drop (chunk_size - chunk_overlap) body) } }.
Proof.
  assert (Hd : forall n s, String.length (drop n s) = String.length s - n).
  { induction n as [|n IH]; intros [|c s]; simpl; auto. }
  rewrite Hd. lia.
Qed.

(** "Must preserve each source Document's metadata on every Chunk
    derived from it." *)
Definition split_document (chunk_size chunk_overlap : nat) (d : Document)
    : list Document :=
  map (fun text => mkDocument text (metadata d))
      (split_text chunk_size chunk_overlap (page_content d)).

Definition split_documents (chunk_size chunk_overlap : nat)
    (documents : list Document) : list Document :=
  flat_map (split_document chunk_size chunk_overlap) documents.

(** Concatenation of the chunks with each chunk's overlap with its
    predecessor removed. *)
Definition reconstruct (chunk_overlap : nat) (chunks : list string)
    : string :=
  match chunks with
  | [] => EmptyString
  | c :: rest => c ++ String.concat EmptyString (map (drop chunk_overlap) rest)
  end.

End Chunker.

(* ===================================================================== *)
(** ** Effects: the world, exceptions and the monad *)
(* ===================================================================== *)

(** An instance of Python's [Exception], which is what [except Exception]
    catches. *)
Inductive Exn : Type :=
| Exception (message : string).

Inductive Outcome (A : Type) : Type :=
| Return (a : A)
| Raise (e : Exn).
Arguments Return {A} a.
Arguments Raise {A} e.

(** What leaves the process: a printed line, a chat request to the
    language model (with the requested temperature, if any), a request to
    the embedder, a call of the text splitter. *)
Inductive Event : Type :=
| Printed (line : string)
| ChatCall (temperature : option Q) (prompt : string)
| EmbedCall (texts : list string)
| SplitCall (documents : list Document).

(** [class RAGService]: the two stores, [None] until built. *)
Record RAGService : Type := mkRAGService {
  personal_vector_store : option FAISS;
  projects_vector_store : option FAISS
}.

(** The module-level singleton [rag_service_instance] and the events so
    far, latest first. *)
Record World : Type := mkWorld {
  rag_service_instance : RAGService;
  trace : list Event
}.

Definition Py (A : Type) : Type := World -> Outcome A * World.

Definition ret {A : Type} (a : A) : Py A := fun w => (Return a, w).

Definition raise {A : Type} (e : Exn) : Py A := fun w => (Raise e, w).

Definition bind {A B : Type} (m : Py A) (f : A -> Py B) : Py B :=
  fun w =>
    match m w with
    | (Return a, w') => f a w'
    | (Raise e, w') => (Raise e, w')
    end.

(** [try: body except Exception as e: handler e] *)
Definition try_except {A : Type} (body : Py A) (handler : Exn -> Py A)
    : Py A :=
  fun w =>
    match body w with
    | (Return a, w') => (Return a, w')
    | (Raise e, w') => handler e w'
    end.

Declare Scope py_scope.
Delimit Scope py_scope with py.
Notation "x <- m ;; k" := (bind m (fun x => k))
  (at level 61, m at next level, right associativity) : py_scope.
Notation "m ;; k" := (bind m (fun _ => k))
  (at level 61, right associativity) : py_scope.

Definition emit (ev : Event) : Py unit :=
  fun w => (Return tt, mkWorld (rag_service_instance w) (ev :: trace w)).

Definition print (line : string) : Py unit := emit (Printed line).

Definition get_self : Py RAGService :=
  fun w => (Return (rag_service_instance w), w).

Definition set_personal_vector_store (v : option FAISS) : Py unit :=
  fun w =>
    (Return tt,
     mkWorld (mkRAGService v (projects_vector_store (rag_service_instance w)))
             (trace w)).

Definition set_projects_vector_store (v : option FAISS) : Py unit :=
  fun w =>
    (Return tt,
     mkWorld (mkRAGService (personal_vector_store (rag_service_instance w)) v)
             (trace w)).

(** [RAGService.__init__] followed by the module's
    [rag_service_instance = RAGService()]. *)
Definition initial_world : World :=
  {| rag_service_instance := mkRAGService None None;
     trace := [Printed "RAGService initialized with multi-expert knowledge bases."] |}.

(** The lines a run has printed, oldest first. *)
Definition printed (w : World) : list string :=
  flat_map (fun ev => match ev with Printed l => [l] | _ => [] end)
           (rev (trace w)).

(* ===================================================================== *)
(** ** rag_service.py *)
(* ===================================================================== *)

Section Service.
Import PyStr.
Open Scope py_scope.

(** The language model behind [ollama.chat(model='llama3', ...)]: the
    content of its reply, or the exception the call (or the reading of
    the reply) raises.  It may depend on all that happened before. *)
Variable ollama_chat : list Event -> option Q -> string -> Outcome string.

(** The embedder [OllamaEmbeddings(model="llama3")] on one text. *)
Variable embed : list Event -> string -> Outcome Vector.

Definition chat (temperature : option Q) (prompt : string) : Py string :=
  fun w =>
    (ollama_chat (trace w) temperature prompt,
     mkWorld (rag_service_instance w)
             (ChatCall temperature prompt :: trace w)).

Fixpoint embed_all (history : list Event) (texts : list string)
    : Outcome (list Vector) :=
  match texts with
  | [] => Return []
  | t :: rest =>
      match embed history t with
      | Raise e => Raise e
      | Return v =>
          match embed_all history rest with
          | Raise e => Raise e
          | Return vs => Return (v :: vs)
          end
      end
  end.

(** [embeddings.embed_documents(texts)]: one request for all texts. *)
Definition embed_documents (texts : list string) : Py (list Vector) :=
  fun w =>
    (embed_all (trace w) texts,
     mkWorld (rag_service_instance w) (EmbedCall texts :: trace w)).

(** [embeddings.embed_query(text)] *)
Definition embed_query (text : string) : Py Vector :=
  fun w =>
    (embed (trace w) text,
     mkWorld (rag_service_instance w) (EmbedCall [text] :: trace w)).

(** [text_splitter.split_documents(documents)] with the splitter built
    by [RecursiveCharacterTextSplitter(chunk_size, chunk_overlap)]. *)
Definition split_documents (chunk_size chunk_overlap : nat)
    (documents : list Document) : Py (list Document) :=
  emit (SplitCall documents) ;;
  ret (Chunker.split_documents chunk_size chunk_overlap documents).

(** Modelled from the spec: [FAISS.from_documents], of a library that is
    not part of the repository.  The index is "constructed from a
    non-empty ordered sequence of (Chunk, Embedding Vector) pairs"; an
    embedder that cannot be reached "must propagate to the caller".
    The library's default metric is the squared Euclidean distance. *)
Definition FAISS_from_documents (chunks : list Document) : Py FAISS :=
  vectors <- embed_documents (map page_content chunks) ;;
  match chunks with
  | [] => raise (Exception "IndexError: list index out of range")
  | _ => ret {| metric := l2_squared; docstore := combine vectors chunks |}
  end.

(** [retriever.invoke(question)]: embeds the question and asks the store
    for the nearest chunks. *)
Definition invoke (retriever : VectorStoreRetriever) (question : string)
    : Py (list Document) :=
  v <- embed_query question ;;
  ret (VectorIndex.similarity_search_by_vector
         (vectorstore retriever) v (search_k retriever)).

Definition _create_vector_store (documents : list Document)
    : Py (option FAISS) :=
  match documents with
  | [] => ret None
  | _ =>
      chunks <- split_documents 1000 100 documents ;;
      print ("    -> Split " ++ str_of_nat (List.length documents)
             ++ " documents into " ++ str_of_nat (List.length chunks)
             ++ " chunks.") ;;
      vector_store <- FAISS_from_documents chunks ;;
      ret (Some vector_store)
  end.

Definition build_knowledge_bases (personal_docs project_docs : list Document)
    : Py unit :=
  print "  -> Building 'Personal Info' knowledge base..." ;;
  personal <- _create_vector_store personal_docs ;;
  set_personal_vector_store personal ;;
  print "  -> Building 'Project Info' knowledge base..." ;;
  projects <- _create_vector_store project_docs ;;
  set_projects_vector_store projects ;;
  print "Knowledge bases built successfully.".

Definition route_prompt (query : string) : string :=
  nl ++
"        You are a query routing expert. Your task is to classify the user's question into one of two categories based on its content:

        1.  **personal_info**: For questions about Alyyan's skills, education, experience, contact details, or personal background.
        2.  **project_info**: For questions about specific technical projects, repositories, code, or architecture.

        User Question: " ++ dq ++ query ++ dq ++ nl ++
"        " ++ nl ++
"        Category:
        ".

Definition route_query (query : string) : Py string :=
  let prompt := route_prompt query in
  try_except
    (response <- chat (Some 0%Q) prompt ;;
     let category := lower (strip response) in
     if contains "personal_info" category then ret "personal_info"
     else if contains "project_info" category then ret "project_info"
     else ret "personal_info")
    (fun _ => ret "personal_info").

Definition get_retriever (category : string)
    : Py (option VectorStoreRetriever) :=
  self <- get_self ;;
  match String.eqb category "personal_info", personal_vector_store self with
  | true, Some store =>
      print " -> Routing to 'Personal Info' knowledge base." ;;
      ret (Some (VectorIndex.as_retriever store))
  | _, _ =>
      match String.eqb category "project_info", projects_vector_store self with
      | true, Some store =>
          print " -> Routing to 'Project Info' knowledge base." ;;
          ret (Some (VectorIndex.as_retriever store))
      | _, _ =>
          ret (match personal_vector_store self with
               | Some store => Some (VectorIndex.as_retriever store)
               | None => None
               end)
      end
  end.

(* ------------------------------------------------------------------- *)
(** *** chat.py *)

Record ChatRequest : Type := mkChatRequest { message : string }.
Record ChatResponse : Type := mkChatResponse { answer : string }.

(** [PROMPT_TEMPLATE.format(context=context, question=question)] *)
Definition PROMPT_TEMPLATE (context question : string) : string :=
"
### ROLE ###
You are an expert AI assistant for Alyyan Ahmed's professional portfolio, named " ++ dq ++ "PortfolioAI" ++ dq ++ ".
You must be professional, articulate, and provide well-structured, readable answers.

### TASK ###
Your task is to answer questions about Alyyan Ahmed based *exclusively* on the provided context information.
Do not use any external knowledge.

### FORMATTING RULES ###
- **Use Markdown for all formatting.**
- Use **bolding** for emphasis on key terms, technologies, or titles.
- Use bullet points (using `-`) for lists of skills, projects, or responsibilities.
- Keep answers concise and to the point.

### BEHAVIORAL RULES ###
1.  **Analyze the User's Question:** Understand the user's intent.
2.  **Scan the Context:** Find the answer only within the provided context.
3.  **Synthesize a Professional Answer:** Formulate a direct answer using the specified Markdown formatting.
4.  **Handle Missing Information:** If the answer is not in the context, you MUST state: " ++ dq ++ "Based on the provided information, I cannot answer that question." ++ dq ++ " Do not apologize or guess.
5.  **Self-Awareness:** If the user asks about " ++ dq ++ "you" ++ dq ++ " (the AI), your purpose, or your architecture, you MUST prioritize information from context that has the source 'self'.

### CONTEXT ###
" ++ context ++ "

### USER QUESTION ###
" ++ question ++ "

### YOUR ANSWER (in Markdown) ###
".

Definition exn_message (e : Exn) : string :=
  match e with Exception m => m end.

Definition process_chat_message (request : ChatRequest) : Py ChatResponse :=
  try_except
    (let question := message request in
     print ("Received question: " ++ question) ;;
     (* 1. Route the query to determine the correct knowledge base *)
     category <- route_query question ;;
     (* 2. Get the appropriate retriever *)
     retriever <- get_retriever category ;;
     match retriever with
     | None => ret (mkChatResponse "Knowledge base is not available.")
     | Some retriever =>
         (* 3. Retrieve relevant context from the chosen knowledge base *)
         relevant_docs <- invoke retriever question ;;
         let context := join (nl ++ nl) (map page_content relevant_docs) in
         print ("--- Retrieved Context from '" ++ category ++ "' ---" ++ nl
                ++ context ++ nl ++ "-------------------------") ;;
         (* 4. Generate the final answer *)
         let prompt := PROMPT_TEMPLATE context question in
         response <- chat None prompt ;;
         ret (mkChatResponse response)
     end)
    (fun e =>
       print ("An error occurred in the chat endpoint: " ++ exn_message e) ;;
       ret (mkChatResponse "Sorry, I encountered an error. Please try again.")).

End Service.

(** A computation that assigns no field of the service. *)
Definition keeps_service {A : Type} (m : Py A) : Prop :=
  forall w, rag_service_instance (snd (m w)) = rag_service_instance w.

(** The world after the one chat request [route_query] makes. *)
Definition after_routing (query : string) (w : World) : World :=
  mkWorld (rag_service_instance w)
          (ChatCall (Some 0%Q) (route_prompt query) :: trace w).

(** The retriever the fallback line of [get_retriever] yields. *)
Definition personal_fallback (self : RAGService) : option VectorStoreRetriever :=
  match personal_vector_store self with
  | Some store => Some (VectorIndex.as_retriever store)
  | None => None
  end.

(* ===================================================================== *)
(** ** Sample collaborators and inputs *)
(* ===================================================================== *)

Module Samples.

(** A language model that cannot be reached. *)
Definition llm_down (_ : list Event) (_ : option Q) (_ : string)
    : Outcome string :=
  Raise (Exception "ConnectionError").

(** A language model that always gives the same reply. *)
Definition llm_says (reply : string) (_ : list Event) (_ : option Q)
    (_ : string) : Outcome string :=
  Return reply.

(** An embedder that maps a text to its length and fails on one text. *)
Definition embed_length (_ : list Event) (text : string) : Outcome Vector :=
  if String.eqb text "unreachable"
  then Raise (Exception "ModelUnavailable")
  else Return [inject_Z (Z.of_nat (String.length text))].

Definition doc (body : string) : Document := mkDocument body [("source", "self")].

Definition cv : Document := doc "Alyyan has 3 years of backend experience".
Definition repo : Document :=
  mkDocument "Repo X: a caching proxy built with a load balancer"
             [("source", "github_project")].
Definition broken : Document := doc "unreachable".

(** An index of ten chunks at distances 9, 1, 8, 2, 7, 3, 6, 3, 5, 0
    from the origin. *)
Definition at_ (n : Z) (body : string) : Vector * Document :=
  ([inject_Z n], doc body).

Definition ten : FAISS :=
  {| metric := l2_squared;
     docstore := [at_ 9 "a"; at_ 1 "b"; at_ 8 "c"; at_ 2 "d"; at_ 7 "e";
                  at_ 3 "f"; at_ 6 "g"; at_ 3 "h"; at_ 5 "i"; at_ 0 "j"] |}.

Definition one (d : Document) : FAISS :=
  {| metric := l2_squared; docstore := [([0%Q], d)] |}.

(** A service whose personal store alone was built. *)
Definition personal_only : World :=
  {| rag_service_instance := mkRAGService (Some (one cv)) None;
     trace := [] |}.

End Samples.

(* ===================================================================== *)
(** ** More of Python's strings and lists *)
(* ===================================================================== *)

Module PyText.
Import PyStr.

(** [bool(s)]: a string is true when it is not empty. *)
Definition truthy (s : string) : bool :=
  match s with
  | EmptyString => false
  | String _ _ => true
  end.

(** [str(x)] inside an f-string, for a value that may be [None]. *)
Definition str_of_option (o : option string) : string :=
  match o with
  | Some s => s
  | None => "None"
  end.

Definition is_lower (c : ascii) : bool :=
  let n := nat_of_ascii c in (97 <=? n) && (n <=? 122).

Definition upper_char (c : ascii) : ascii :=
  if is_lower c then ascii_of_nat (nat_of_ascii c - 32) else c.

(** [s.title()]: a letter that follows a letter is lower-cased, any other
    letter is upper-cased. *)
Fixpoint title_from (previous_is_cased : bool) (s : string) : string :=
  match s with
  | EmptyString => EmptyString
  | String c s' =>
      if is_lower c
      then String (if previous_is_cased then c else upper_char c)
                  (title_from true s')
      else if is_upper c
      then String (if previous_is_cased then lower_char c else c)
                  (title_from true s')
      else String c (title_from false s')
  end.

Definition title (s : string) : string := title_from false s.

(** [s.split(sep)] for a separator that is not empty: the pieces between
    the occurrences of [sep], found from the left and not overlapping.
    [skip] counts the characters of an occurrence still to pass. *)
Fixpoint split_from (sep s : string) (skip : nat) : list string :=
  match s with
  | EmptyString => [EmptyString]
  | String c s' =>
      match skip with
      | S k => split_from sep s' k
      | O =>
          if String.prefix sep s
          then EmptyString :: split_from sep s' (String.length sep - 1)
          else match split_from sep s' 0 with
               | piece :: rest => String c piece :: rest
               | [] => [String c EmptyString]
               end
      end
  end.

Definition split (sep s : string) : list string := split_from sep s 0.

(** [s.startswith((p1, p2, ...))] *)
Definition startswith (prefixes : list string) (s : string) : bool :=
  existsb (fun p => String.prefix p s) prefixes.

(** [l.index(x)]: the first position of [x], if any. *)
Fixpoint index (x : string) (l : list string) : option nat :=
  match l with
  | [] => None
  | y :: l' =>
      if String.eqb y x then Some 0
      else match index x l' with
           | Some i => Some (S i)
           | None => None
           end
  end.

End PyText.

(** An outcome that costs no effect: a value read, or an exception
    raised, by a collaborator. *)
Definition lift {A : Type} (o : Outcome A) : Py A := fun w => (o, w).

(* ===================================================================== *)
(** ** data_loader.py: the GitHub loader *)
(* ===================================================================== *)

Module GitHub.
Import PyStr PyText.

(** A repository as the GitHub client presents it.  [get_topics] and
    [get_readme] are requests: they return or raise.  [get_readme]
    stands for [repo.get_readme().decoded_content.decode('utf-8')]. *)
Record Repository : Type := mkRepository {
  name : string;
  description : option string;
  language : option string;
  get_topics : Outcome (list string);
  private : bool;
  html_url : string;
  get_readme : Outcome string
}.

(** [class GitHubLoader].  [github] is the client built from the access
    token: asked for a user, it raises or yields the user's repositories
    in the order of [get_repos(sort="updated")], followed by the exception,
    if any, that ends the paginated iteration. *)
Record GitHubLoader : Type := mkGitHubLoader {
  github : string -> Outcome (list Repository * option Exn);
  username : string;
  self_repo_name : option string
}.

Definition ALLOWED_README_SECTIONS : list string :=
  ["features"; "key features"; "overview"; "introduction"; "about the project";
   "technology stack"; "tech stack"; "built with"; "technologies used";
   "architecture"; "how it works"; "project structure"].

(** [GitHubLoader.__init__]; [client] is what [Github(access_token)]
    builds. *)
Definition GitHubLoader__init__
    (client : string -> string -> Outcome (list Repository * option Exn))
    (access_token username : string) (self_repo_name : option string)
    : Py GitHubLoader :=
  if negb (truthy access_token) || negb (truthy username)
  then raise (Exception "GitHub access token and username are required.")
  else ret {| github := client access_token;
              username := username;
              self_repo_name := self_repo_name |}.

(** The test of the inner loop: a line that is not blank and starts
    neither a title, nor a link or badge, nor an image. *)
Definition descriptive (line : string) : bool :=
  truthy (strip line) && negb (startswith ["#"; "["; "!"] (strip line)).

(** The test on a heading: [any(allowed in heading for allowed in ...)]. *)
Definition whitelisted (heading : string) : bool :=
  existsb (fun allowed => contains allowed heading) ALLOWED_README_SECTIONS.

(** The loop [for section in sections] of
    [_parse_readme_for_relevant_content]; [todo] are the sections still
    to visit. *)
Fixpoint sections_loop (readme_content : string) (sections todo : list string)
    (relevant_content : list string) : Py (list string) :=
  match todo with
  | [] => ret relevant_content
  | section :: todo' =>
      (is_first <- (if contains "## " readme_content then ret false
                    else match index section sections with
                         | Some i => ret (i =? 0)
                         | None => raise (Exception "ValueError: not in list")
                         end) ;;
       if is_first : bool then
         (* The first part before any '##' is the main project description *)
         let lines := split nl section in
         (* Find the first real paragraph (skip title, badges, etc.) *)
         match find descriptive lines with
         | Some line =>
             sections_loop readme_content sections todo'
               (List.app relevant_content [strip line])
         | None =>
             sections_loop readme_content sections todo' relevant_content
         end
       else
         (* For all other sections, check the heading *)
         let section_lines := split nl section in
         match section_lines with
         | [] => raise (Exception "IndexError: list index out of range")
         | first_line :: body_lines =>
             let heading := lower (strip first_line) in
             if whitelisted heading then
               print ("    -> Extracting relevant section: '" ++ heading ++ "'") ;;
               let content_body :=
                 join nl (filter (fun line => truthy (strip line)) body_lines) in
               sections_loop readme_content sections todo'
                 (List.app relevant_content
                    ["### " ++ title heading ++ nl ++ content_body])
             else
               sections_loop readme_content sections todo' relevant_content
         end)%py
  end.

Definition _parse_readme_for_relevant_content (repo : Repository)
    : Py string :=
  try_except
    (readme_content <- lift (get_readme repo) ;;
     (* Split the README into sections based on '##' headings *)
     let sections := split (nl ++ "## ") readme_content in
     relevant_content <- sections_loop readme_content sections sections [] ;;
     ret (match relevant_content with
          | [] => EmptyString
          | _ => join (nl ++ nl) relevant_content
          end))%py
    (fun _ => ret EmptyString).

Definition core_info (repo : Repository) (topics : list string) : string :=
  nl ++
"                    Repository Name: " ++ name repo ++ nl ++
"                    Description: " ++ str_of_option (description repo) ++ nl ++
"                    Primary Language: " ++ str_of_option (language repo) ++ nl ++
"                    Topics: " ++ join ", " topics ++ nl ++
"                    ".

(** [self.self_repo_name and repo.name == self.self_repo_name] *)
Definition is_self_repo (self : GitHubLoader) (repo : Repository) : bool :=
  match self_repo_name self with
  | Some own => truthy own && String.eqb (name repo) own
  | None => false
  end.

(** The loop [for repo in user.get_repos(sort="updated")] of
    [load_repo_data]. *)
Fixpoint repos_loop (self : GitHubLoader) (repos : list Repository)
    (repo_docs : list Document) : Py (list Document) :=
  match repos with
  | [] => ret repo_docs
  | repo :: repos' =>
      if negb (private repo) then
        (print ("  -> Processing repo: " ++ name repo) ;;
         (* Core project info is always included *)
         topics <- lift (get_topics repo) ;;
         (* Intelligently parse the README for additional context *)
         readme_summary <- _parse_readme_for_relevant_content repo ;;
         (* Combine core info with the clean README summary *)
         let full_content :=
           if truthy readme_summary
           then strip (core_info repo topics)
                ++ nl ++ nl ++ "--- Key Information from README ---" ++ nl
                ++ readme_summary
           else strip (core_info repo topics) in
         source <- (if is_self_repo self repo
                    then print "    -> Tagged as self-repository." ;;
                         ret "self"
                    else ret "github_project") ;;
         let doc_metadata :=
           [("source", source); ("repo_name", name repo);
            ("url", html_url repo)] in
         repos_loop self repos'
           (List.app repo_docs [mkDocument full_content doc_metadata]))%py
      else repos_loop self repos' repo_docs
  end.

Definition load_repo_data (self : GitHubLoader) : Py (list Document) :=
  (print ("Fetching repository data for user '" ++ username self
          ++ "' from GitHub...") ;;
   try_except
     (user <- lift (github self (username self)) ;;
      repo_docs <- repos_loop self (fst user) [] ;;
      match snd user with
      | Some e => raise e
      | None =>
          print ("Successfully fetched and processed data for "
                 ++ str_of_nat (List.length repo_docs)
                 ++ " public repositories.") ;;
          ret repo_docs
      end)
     (fun e =>
        print ("An error occurred while fetching from GitHub: "
               ++ exn_message e) ;;
        ret []))%py.

End GitHub.

(* ===================================================================== *)
(** ** data_loader.py: the Google Drive loader *)
(* ===================================================================== *)

Module GoogleDrive.
Import PyStr PyText.

(** A file entry of the Drive API: a dictionary from field names to
    values. *)
Definition Item : Type := list (string * string).

(** [item[key]], a [KeyError] when the key is missing. *)
Fixpoint getitem (key : string) (item : Item) : Outcome string :=
  match item with
  | [] => Raise (Exception ("'" ++ key ++ "'"))
  | (k, v) :: item' => if String.eqb k key then Return v else getitem key item'
  end.

(** A download in progress: what each call of [next_chunk] brings, a
    piece of the content or an exception; the call that brings the last
    piece reports [done]. *)
Definition Download : Type := (Outcome string * list (Outcome string))%type.

(** The Drive client [build('drive', 'v3', credentials=creds)].
    [files_list q fields] stands for [files().list(...).execute()] and
    yields the entry "files" of the reply, if the reply has one. *)
Record Service : Type := mkService {
  files_list : string -> string -> Outcome (option (list Item));
  get_media : string -> Download;
  export_media : string -> string -> Download
}.

(** What the loader needs from its surroundings: the path of the
    credentials file and whether it exists, the client that the
    credentials give, and the file system. *)
Record Platform : Type := mkPlatform {
  GOOGLE_CREDS_PATH : string;
  creds_exist : bool;
  connect : Outcome Service;
  mkdir : string -> Outcome unit;
  open_file : string -> string -> Outcome unit;
  write : string -> string -> Outcome unit;
  decode : string -> Outcome string
}.

(** [class GoogleDriveLoader] *)
Record GoogleDriveLoader : Type := mkGoogleDriveLoader {
  folder_id : string;
  service : Service
}.

(** [save_dir / name] for a plain file name. *)
Definition path_join (dir file : string) : string := dir ++ "/" ++ file.

(** [s.rfind(c)] *)
Fixpoint rfind (c : ascii) (s : string) : option nat :=
  match s with
  | EmptyString => None
  | String a s' =>
      match rfind c s' with
      | Some i => Some (S i)
      | None => if Ascii.eqb a c then Some 0 else None
      end
  end.

(** [path.name]: the last component of the path. *)
Definition path_name (path : string) : string :=
  match rfind "/" path with
  | Some i => drop (S i) path
  | None => path
  end.

(** [path.suffix]: the name from its last dot on, when that dot is
    neither the first nor the last character of the name. *)
Definition suffix (path : string) : string :=
  let name := path_name path in
  match rfind "." name with
  | Some i =>
      if (0 <? i) && (i <? String.length name - 1) then drop i name
      else EmptyString
  | None => EmptyString
  end.

Definition _authenticate (os : Platform) : Py Service :=
  if negb (creds_exist os)
  then raise (Exception ("Google credentials file not found at "
                         ++ GOOGLE_CREDS_PATH os ++ "."))
  else (service <- lift (connect os) ;;
        print "Successfully authenticated with Google Drive API." ;;
        ret service)%py.

Definition GoogleDriveLoader__init__ (os : Platform) (folder_id : string)
    : Py GoogleDriveLoader :=
  if negb (truthy folder_id)
  then raise (Exception "Google Drive folder ID is required.")
  else (service <- _authenticate os ;;
        ret {| folder_id := folder_id; service := service |})%py.

(** The loop [while not done: _, done = downloader.next_chunk()], with
    the buffer [fh] so far. *)
Fixpoint next_chunks (fh : string) (chunk : Outcome string)
    (later : list (Outcome string)) : Outcome string :=
  match chunk with
  | Raise e => Raise e
  | Return piece =>
      match later with
      | [] => Return (fh ++ piece)
      | chunk' :: later' => next_chunks (fh ++ piece) chunk' later'
      end
  end.

Definition _download_binary_file (os : Platform) (self : GoogleDriveLoader)
    (file_id save_path : string) : Py unit :=
  (let request := get_media (service self) file_id in
   content <- lift (next_chunks EmptyString (fst request) (snd request)) ;;
   lift (open_file os save_path "wb") ;;
   lift (write os save_path content) ;;
   print (" -> Saved to '" ++ save_path ++ "'"))%py.

Definition _export_google_doc (os : Platform) (self : GoogleDriveLoader)
    (file_id save_path : string) : Py unit :=
  (let request := export_media (service self) file_id "text/plain" in
   content <- lift (next_chunks EmptyString (fst request) (snd request)) ;;
   lift (open_file os save_path "w") ;;
   text <- lift (decode os content) ;;
   lift (write os save_path text) ;;
   print (" -> Exported and saved to '" ++ save_path ++ "'"))%py.

(** The loop [for item in items] of [load_documents].  [save_path] is
    the local variable of that name: [None] until an iteration assigns
    it, and kept from one iteration to the next. *)
Fixpoint items_loop (os : Platform) (self : GoogleDriveLoader)
    (save_dir : string) (items : list Item) (save_path : option string)
    (downloaded_paths : list string) : Py (list string) :=
  match items with
  | [] => ret downloaded_paths
  | item :: items' =>
      (file_id <- lift (getitem "id" item) ;;
       file_name <- lift (getitem "name" item) ;;
       mime_type <- lift (getitem "mimeType" item) ;;
       print ("Found document: '" ++ file_name ++ "'...") ;;
       save_path <-
         (if String.eqb mime_type "application/pdf" then
            let save_path := path_join save_dir (file_id ++ ".pdf") in
            _download_binary_file os self file_id save_path ;;
            ret (Some save_path)
          else if String.eqb mime_type "application/vnd.google-apps.document"
          then
            let save_path := path_join save_dir (file_id ++ ".txt") in
            _export_google_doc os self file_id save_path ;;
            ret (Some save_path)
          else ret save_path) ;;
       match save_path with
       | None =>
           raise (Exception
                    "cannot access local variable 'save_path' where it is not associated with a value")
       | Some path =>
           items_loop os self save_dir items' save_path
             (List.app downloaded_paths [path])
       end)%py
  end.

(** The query of [load_documents]: the PDFs and the Google Docs of the
    folder. *)
Definition list_query (folder_id : string) : string :=
  "'" ++ folder_id
  ++ "' in parents and (mimeType='application/pdf' or mimeType='application/vnd.google-apps.document')".

Definition load_documents (os : Platform) (self : GoogleDriveLoader)
    (save_dir : string) : Py (list string) :=
  try_except
    ((* Query for both PDFs and Google Docs *)
     let query := list_query (folder_id self) in
     results <- lift (files_list (service self) query
                        "files(id, name, mimeType)") ;;
     let items := match results with Some files => files | None => [] end in
     match items with
     | [] =>
         print ("No relevant documents found in Google Drive folder ID: "
                ++ folder_id self) ;;
         ret []
     | _ =>
         lift (mkdir os save_dir) ;;
         items_loop os self save_dir items None []
     end)%py
    (fun e =>
       print ("An error occurred while downloading from Google Drive: "
              ++ exn_message e) ;;
       ret [])%py.

(** A path that [load_documents] makes for one of the listed files: the
    data directory, the id of the file, and ".pdf" or ".txt". *)
Definition names_listed_file (save_dir : string) (items : list Item)
    (path : string) : Prop :=
  exists item file_id,
    In item items
    /\ getitem "id" item = Return file_id
    /\ (path = path_join save_dir (file_id ++ ".pdf")
        \/ path = path_join save_dir (file_id ++ ".txt")).

(** A listed PDF whose download breaks off with an exception. *)
Definition download_fails (self : GoogleDriveLoader) (item : Item) : Prop :=
  exists file_id file_name e,
    getitem "id" item = Return file_id
    /\ getitem "name" item = Return file_name
    /\ getitem "mimeType" item = Return "application/pdf"
    /\ next_chunks EmptyString (fst (get_media (service self) file_id))
         (snd (get_media (service self) file_id)) = Raise e.

End GoogleDrive.

(* ===================================================================== *)
(** ** main.py: the start of the application *)
(* ===================================================================== *)

Module Main.
Import PyStr PyText.

(** Where the application runs: the environment variables, the data
    directory, the platform of the Drive loader, the GitHub client that
    an access token gives, and the two document loaders
    ([PyMuPDFLoader(str(path)).load()] and
    [TextLoader(str(path), encoding='utf-8').load()]). *)
Record Deployment : Type := mkDeployment {
  getenv : string -> option string;
  DATA_DIR : string;
  platform : GoogleDrive.Platform;
  Github : string -> string -> Outcome (list GitHub.Repository * option Exn);
  PyMuPDFLoader_load : string -> Outcome (list Document);
  TextLoader_load : string -> Outcome (list Document)
}.

(** [if value:] on what [os.getenv] returned. *)
Definition env_truthy (value : option string) : bool :=
  match value with
  | Some s => truthy s
  | None => false
  end.

Definition env_value (value : option string) : string :=
  match value with
  | Some s => s
  | None => EmptyString
  end.

(** [metadata.get(key)] *)
Fixpoint metadata_get (key : string) (metadata : list (string * string))
    : option string :=
  match metadata with
  | [] => None
  | (k, v) :: metadata' =>
      if String.eqb k key then Some v else metadata_get key metadata'
  end.

(** [doc.metadata.get("source") == "self"] *)
Definition is_self (doc : Document) : bool :=
  match metadata_get "source" (metadata doc) with
  | Some source => String.eqb source "self"
  | None => false
  end.

(** The loop [for path in local_doc_paths]. *)
Fixpoint paths_loop (site : Deployment) (paths : list string)
    (personal_documents : list Document) : Py (list Document) :=
  match paths with
  | [] => ret personal_documents
  | path :: paths' =>
      if String.eqb (GoogleDrive.suffix path) ".pdf" then
        (docs <- lift (PyMuPDFLoader_load site path) ;;
         paths_loop site paths' (List.app personal_documents docs))%py
      else if String.eqb (GoogleDrive.suffix path) ".txt" then
        (docs <- lift (TextLoader_load site path) ;;
         paths_loop site paths' (List.app personal_documents docs))%py
      else paths_loop site paths' personal_documents
  end.

(** The loop [for doc in github_docs], which separates the "self"
    repository from the projects. *)
Fixpoint docs_loop (github_docs : list Document)
    (personal_documents project_documents : list Document)
    : list Document * list Document :=
  match github_docs with
  | [] => (personal_documents, project_documents)
  | doc :: github_docs' =>
      if is_self doc
      then docs_loop github_docs' (List.app personal_documents [doc])
             project_documents
      else docs_loop github_docs' personal_documents
             (List.app project_documents [doc])
  end.

(** [lifespan] up to its [yield]: what happens when the application
    starts. *)
Definition lifespan (site : Deployment)
    (embed : list Event -> string -> Outcome Vector) : Py unit :=
  (print "--- Application Startup: Initializing Knowledge Base ---" ;;
   (* Step 1: Load data from Google Drive (for Personal Info) *)
   print (nl ++ "[Phase 1/3] Loading personal documents from Google Drive...") ;;
   let folder_id := getenv site "GOOGLE_DRIVE_CV_FOLDER_ID" in
   personal_documents <-
     (if env_truthy folder_id then
        gdrive_loader <- GoogleDrive.GoogleDriveLoader__init__ (platform site)
                           (env_value folder_id) ;;
        local_doc_paths <- GoogleDrive.load_documents (platform site)
                             gdrive_loader (DATA_DIR site) ;;
        paths_loop site local_doc_paths []
      else ret []) ;;
   (* Step 2: Load data from GitHub (for Project Info) *)
   print (nl ++ "[Phase 2/3] Loading project documents from GitHub...") ;;
   let github_token := getenv site "GITHUB_ACCESS_TOKEN" in
   let github_user := getenv site "GITHUB_USERNAME" in
   let self_repo := getenv site "SELF_REPO_NAME" in
   documents <-
     (if env_truthy github_token && env_truthy github_user then
        github_loader <- GitHub.GitHubLoader__init__ (Github site)
                           (env_value github_token) (env_value github_user)
                           self_repo ;;
        github_docs <- GitHub.load_repo_data github_loader ;;
        (* Separate the "self" repo to be with personal info *)
        ret (docs_loop github_docs personal_documents [])
      else ret (personal_documents, [])) ;;
   (* Step 3: Build the separate RAG knowledge bases *)
   print (nl ++ "[Phase 3/3] Building the RAG knowledge bases...") ;;
   build_knowledge_bases embed (fst documents) (snd documents))%py.

(** What two opening lines leave behind. *)
Definition after_phase_1 (w : World) : World :=
  mkWorld (rag_service_instance w)
    (Printed (nl ++ "[Phase 1/3] Loading personal documents from Google Drive...")
     :: Printed "--- Application Startup: Initializing Knowledge Base ---"
     :: trace w).

(** The loader that [lifespan] builds from the environment. *)
Definition github_loader_of (site : Deployment) (token user : string) : GitHub.GitHubLoader :=
  GitHub.mkGitHubLoader (Github site token) user
    (getenv site "SELF_REPO_NAME").

End Main.

(* ===================================================================== *)
(** ** Sample repositories, Drive folders and deployments *)
(* ===================================================================== *)

Module MoreSamples.
Import PyStr.

(** A README without any section heading. *)
Definition readme_plain : string :=
  "# Proxy" ++ nl ++ "[![build](badge.svg)](ci)" ++ nl ++ nl
  ++ "  A caching proxy built with a load balancer.  " ++ nl ++ "More text.".

(** A README whose only section is not on the whitelist. *)
Definition readme_sections : string :=
  "# Portfolio" ++ nl ++ "The site itself." ++ nl
  ++ "## Installation" ++ nl ++ "pip install -r requirements.txt".

Definition repo_proxy : GitHub.Repository :=
  GitHub.mkRepository "proxy" None (Some "Python") (Return ["cache"; "proxy"])
    false "https://example.org/proxy" (Return readme_plain).

Definition repo_portfolio : GitHub.Repository :=
  GitHub.mkRepository "ai-portfolio" (Some "This site") None (Return [])
    false "https://example.org/ai-portfolio" (Return readme_sections).

Definition repo_secret : GitHub.Repository :=
  GitHub.mkRepository "secret" None None
    (Raise (Exception "403 Forbidden")) true "https://example.org/secret"
    (Raise (Exception "404 Not Found")).

Definition client (_ _ : string)
    : Outcome (list GitHub.Repository * option Exn) :=
  Return ([repo_proxy; repo_secret; repo_portfolio], None).

Definition loader : GitHub.GitHubLoader :=
  GitHub.mkGitHubLoader (client "token") "alyyan" (Some "ai-portfolio").

Definition pdf_item : GoogleDrive.Item :=
  [("id", "1a"); ("name", "cv.pdf"); ("mimeType", "application/pdf")].

Definition doc_item : GoogleDrive.Item :=
  [("id", "2b"); ("name", "notes");
   ("mimeType", "application/vnd.google-apps.document")].

Definition drive : GoogleDrive.Service :=
  {| GoogleDrive.files_list := fun _ _ => Return (Some [pdf_item; doc_item]);
     GoogleDrive.get_media := fun _ => (Return "%PDF", [Return "-1.4"]);
     GoogleDrive.export_media := fun _ _ => (Return "notes", []) |}.

Definition disk (credentials : bool) : GoogleDrive.Platform :=
  {| GoogleDrive.GOOGLE_CREDS_PATH := "/srv/google_credentials.json";
     GoogleDrive.creds_exist := credentials;
     GoogleDrive.connect := Return drive;
     GoogleDrive.mkdir := fun _ => Return tt;
     GoogleDrive.open_file := fun _ _ => Return tt;
     GoogleDrive.write := fun _ _ => Return tt;
     GoogleDrive.decode := fun content => Return content |}.

Definition drive_loader : GoogleDrive.GoogleDriveLoader :=
  {| GoogleDrive.folder_id := "folder"; GoogleDrive.service := drive |}.

(** A deployment with the given environment and credentials file. *)
Definition site (environment : list (string * string)) (credentials : bool)
    : Main.Deployment :=
  {| Main.getenv := fun key => Main.metadata_get key environment;
     Main.DATA_DIR := "/srv/data";
     Main.platform := disk credentials;
     Main.Github := client;
     Main.PyMuPDFLoader_load := fun path => Return [Samples.doc path];
     Main.TextLoader_load := fun path => Return [Samples.doc path] |}.

Definition github_only : list (string * string) :=
  [("GITHUB_ACCESS_TOKEN", "token"); ("GITHUB_USERNAME", "alyyan");
   ("SELF_REPO_NAME", "ai-portfolio")].

Definition drive_only : list (string * string) :=
  [("GOOGLE_DRIVE_CV_FOLDER_ID", "folder")].

(** A service with both stores built. *)
Definition both_built : World :=
  {| rag_service_instance :=
       mkRAGService (Some (Samples.one Samples.cv))
                    (Some (Samples.one Samples.repo));
     trace := [] |}.

End MoreSamples.

(* ===================================================================== *)
(** * Properties *)
(* ===================================================================== *)

(* --------------------------------------------------------------------- *)
(** ** Facts about strings *)

Section StringFacts.
Import PyStr.

Lemma is_space_lower_char (c : ascii) :
  is_space (lower_char c) = is_space c.
Proof.
  unfold lower_char. destruct (is_upper c) eqn:U; [|reflexivity].
  destruct c as [[] [] [] [] [] [] [] []]; vm_compute in U |- *;
    congruence.
Qed.

Lemma lower_lstrip (s : string) : lower (lstrip s) = lstrip (lower s).
Proof.
  induction s as [|c s IH]; simpl; [reflexivity|].
  rewrite is_space_lower_char. destruct (is_space c); auto.
Qed.

Lemma lower_rstrip (s : string) : lower (rstrip s) = rstrip (lower s).
Proof.
  induction s as [|c s IH]; simpl; [reflexivity|].
  rewrite <- IH, is_space_lower_char.
  destruct (rstrip s); simpl; [destruct (is_space c)|]; reflexivity.
Qed.

Lemma lower_strip (s : string) : lower (strip s) = strip (lower s).
Proof. unfold strip. now rewrite lower_lstrip, lower_rstrip. Qed.

Lemma prefix_empty_r (needle : string) :
  needle <> EmptyString -> String.prefix needle EmptyString = false.
Proof. destruct needle; [congruence | reflexivity]. Qed.

Lemma ends_solid_nonempty (needle : string) :
  ends_solid needle = true -> needle <> EmptyString.
Proof. destruct needle; simpl; congruence. Qed.

Lemma contains_lstrip (needle s : string) :
  starts_solid needle = true ->
  contains needle (lstrip s) = contains needle s.
Proof.
  intros Hn. destruct needle as [|a needle]; [discriminate|].
  simpl in Hn. apply negb_true_iff in Hn.
  induction s as [|c s IH]; [reflexivity|].
  change (lstrip (String c s))
    with (if is_space c then lstrip s else String c s).
  destruct (is_space c) eqn:Hc; [|reflexivity].
  rewrite IH. simpl.
  destruct (ascii_dec a c) as [->|_]; [congruence | reflexivity].
Qed.

Lemma prefix_rstrip (s needle : string) :
  ends_solid needle = true ->
  String.prefix needle (rstrip s) = String.prefix needle s.
Proof.
  revert needle.
  induction s as [|c s IH]; intros needle Hn; [reflexivity|].
  destruct needle as [|a needle]; [discriminate|].
  destruct needle as [|b needle].
  - simpl in Hn. apply negb_true_iff in Hn. simpl.
    destruct (rstrip s); simpl.
    + destruct (is_space c) eqn:Hc; simpl;
        destruct (ascii_dec a c) as [->|]; try reflexivity; try congruence.
      now destruct s.
    + destruct (ascii_dec a c); [now destruct s | reflexivity].
  - assert (Hn' : ends_solid (String b needle) = true) by exact Hn.
    specialize (IH _ Hn').
    change (String.prefix (String a (String b needle)) (String c s))
      with (if ascii_dec a c then String.prefix (String b needle) s else false).
    rewrite <- IH. simpl.
    destruct (rstrip s) as [|d r].
    + destruct (is_space c); simpl; destruct (ascii_dec a c); reflexivity.
    + reflexivity.
Qed.

Lemma contains_rstrip (needle s : string) :
  ends_solid needle = true ->
  contains needle (rstrip s) = contains needle s.
Proof.
  intros Hn. pose proof (ends_solid_nonempty _ Hn) as Hne.
  induction s as [|c s IH]; [reflexivity|].
  change (contains needle (String c s))
    with (String.prefix needle (String c s) || contains needle s).
  rewrite <- IH, <- (prefix_rstrip (String c s) needle Hn).
  simpl rstrip. destruct (rstrip s) as [|d r] eqn:E.
  - assert (Hp : forall t, contains needle t = String.prefix needle t
                           || match t with
                              | EmptyString => false
                              | String _ t' => contains needle t'
                              end) by (now destruct t).
    destruct (is_space c).
    + rewrite (Hp EmptyString), (prefix_empty_r _ Hne). reflexivity.
    + rewrite (Hp (String c EmptyString)), (Hp EmptyString).
      rewrite (prefix_empty_r _ Hne), !orb_false_r. reflexivity.
  - reflexivity.
Qed.

Lemma contains_strip (needle s : string) :
  starts_solid needle = true -> ends_solid needle = true ->
  contains needle (strip s) = contains needle s.
Proof.
  intros Hs He. unfold strip.
  now rewrite contains_lstrip, contains_rstrip.
Qed.

(** Cleaning the reply ([strip] then [lower]) finds a label exactly when
    the lower-cased reply holds it. *)
Lemma contains_cleaned (needle response : string) :
  starts_solid needle = true -> ends_solid needle = true ->
  contains needle (lower (strip response)) = contains needle (lower response).
Proof.
  intros Hs He. rewrite lower_strip. now apply contains_strip.
Qed.

End StringFacts.

(* --------------------------------------------------------------------- *)
(** ** The query router *)

Section Router.
Import PyStr.

Variable ollama_chat : list Event -> option Q -> string -> Outcome string.

(** [route_query] always returns, with one of the two labels, and its
    only effect is the chat request. *)
Lemma route_query_returns (query : string) (w : World) :
  exists label,
    route_query ollama_chat query w = (Return label, after_routing query w)
    /\ (label = "personal_info" \/ label = "project_info").
Proof.
  unfold route_query, try_except, bind, chat, ret, after_routing.
  destruct (ollama_chat (trace w) (Some 0%Q) (route_prompt query))
    as [response|e].
  - destruct (contains "personal_info" (lower (strip response)));
      [eauto|].
    destruct (contains "project_info" (lower (strip response))); eauto.
  - eauto.
Qed.

Lemma route_query_on_reply (query response : string) (w : World) :
  ollama_chat (trace w) (Some 0%Q) (route_prompt query) = Return response ->
  fst (route_query ollama_chat query w)
  = Return (if contains "personal_info" (lower response) then "personal_info"
            else if contains "project_info" (lower response)
                 then "project_info" else "personal_info").
Proof.
  intros Hreply.
  unfold route_query, try_except, bind, chat, ret. rewrite Hreply.
  rewrite !contains_cleaned by reflexivity.
  destruct (contains "personal_info" (lower response)); [reflexivity|].
  destruct (contains "project_info" (lower response)); reflexivity.
Qed.

(** C4: when the lower-cased reply of the model holds neither
    "personal_info" nor "project_info", or holds both, [route_query]
    returns "personal_info". *)
Theorem route_query_default_personal
    (query response : string) (w : World) :
  ollama_chat (trace w) (Some 0%Q) (route_prompt query) = Return response ->
  (contains "personal_info" (lower response) = false
   /\ contains "project_info" (lower response) = false)
  \/ (contains "personal_info" (lower response) = true
      /\ contains "project_info" (lower response) = true) ->
  fst (route_query ollama_chat query w) = Return "personal_info".
Proof.
  intros Hreply Hcase. rewrite (route_query_on_reply _ _ _ Hreply).
  destruct Hcase as [[Hp Hj] | [Hp Hj]]; rewrite Hp; [rewrite Hj|];
    reflexivity.
Qed.

(** C5: when the call of the language model raises, [route_query]
    returns "personal_info"; nothing is raised to the caller. *)
Theorem route_query_fail_open (query : string) (w : World) (e : Exn) :
  ollama_chat (trace w) (Some 0%Q) (route_prompt query) = Raise e ->
  fst (route_query ollama_chat query w) = Return "personal_info".
Proof.
  intros Hdown.
  unfold route_query, try_except, bind, chat, ret. rewrite Hdown.
  reflexivity.
Qed.

(** C9: [route_query] leaves both vector stores as they were. *)
Theorem route_query_keeps_stores (query : string) (w : World) :
  let w' := snd (route_query ollama_chat query w) in
  personal_vector_store (rag_service_instance w')
  = personal_vector_store (rag_service_instance w)
  /\ projects_vector_store (rag_service_instance w')
     = projects_vector_store (rag_service_instance w).
Proof.
  destruct (route_query_returns query w) as (label & Hrun & _).
  cbv zeta. rewrite Hrun. split; reflexivity.
Qed.

End Router.

Lemma route_query_default_personal_witness :
  fst (route_query (Samples.llm_says "  Both personal_info and PROJECT_INFO ")
         "Who is Alyyan?" initial_world)
  = Return "personal_info".
Proof.
  apply (route_query_default_personal
           (Samples.llm_says "  Both personal_info and PROJECT_INFO ")
           "Who is Alyyan?" "  Both personal_info and PROJECT_INFO "
           initial_world).
  - reflexivity.
  - right. split; reflexivity.
Defined.

Lemma route_query_fail_open_witness :
  fst (route_query Samples.llm_down "Who is Alyyan?" initial_world)
  = Return "personal_info".
Proof.
  apply (route_query_fail_open Samples.llm_down "Who is Alyyan?"
           initial_world (Exception "ConnectionError")).
  reflexivity.
Defined.

(* --------------------------------------------------------------------- *)
(** ** The vector index *)

Section IndexFacts.

Variable key : Vector * Document -> Q.

Lemma insert_nearest_perm (x : Vector * Document) l :
  Permutation (VectorIndex.insert_nearest key x l) (x :: l).
Proof.
  induction l as [|y l IH]; simpl; [reflexivity|].
  destruct (Qle_bool (key x) (key y)); [reflexivity|].
  rewrite IH. apply perm_swap.
Qed.

Lemma nearest_first_perm l :
  Permutation (VectorIndex.nearest_first key l) l.
Proof.
  induction l as [|x l IH]; simpl; [reflexivity|].
  rewrite insert_nearest_perm. now constructor.
Qed.

Lemma insert_nearest_sorted (x : Vector * Document) l :
  VectorIndex.near_to_far key l -> VectorIndex.near_to_far key (VectorIndex.insert_nearest key x l).
Proof.
  unfold VectorIndex.near_to_far. induction 1 as [|y l Hl IH Hy]; simpl.
  - repeat constructor.
  - destruct (Qle_bool (key x) (key y)) eqn:Hxy.
    + apply Qle_bool_iff in Hxy.
      constructor; [now constructor|].
      constructor; [exact Hxy|].
      eapply Forall_impl; [|exact Hy].
      intros z Hz. simpl in Hz. now apply Qle_trans with (key y).
    + assert (Hyx : (key y <= key x)%Q).
      { apply Qlt_le_weak, Qnot_le_lt. intros Hle.
        apply Qle_bool_iff in Hle. congruence. }
      constructor; [exact IH|].
      eapply Permutation_Forall;
        [symmetry; apply insert_nearest_perm|].
      now constructor.
Qed.

Lemma nearest_first_sorted l :
  VectorIndex.near_to_far key (VectorIndex.nearest_first key l).
Proof.
  induction l as [|x l IH]; simpl; [constructor|].
  now apply insert_nearest_sorted.
Qed.

Lemma near_to_far_app l1 l2 :
  VectorIndex.near_to_far key (l1 ++ l2) ->
  VectorIndex.near_to_far key l1
  /\ forall a b, In a l1 -> In b l2 -> (key a <= key b)%Q.
Proof.
  unfold VectorIndex.near_to_far. induction l1 as [|x l1 IH]; simpl; intros Hs.
  - split; [constructor | intros a b []].
  - apply StronglySorted_inv in Hs. destruct Hs as [Hs Hx].
    destruct (IH Hs) as [Hl1 Hcross]. split.
    + constructor; [exact Hl1|].
      apply Forall_app in Hx. tauto.
    + intros a b [<-|Ha] Hb; [|now apply Hcross].
      rewrite Forall_forall in Hx. apply Hx, in_or_app. now right.
Qed.

End IndexFacts.

Lemma In_firstn_In {A : Type} (k : nat) (l : list A) (y : A) :
  In y (firstn k l) -> In y l.
Proof.
  intros Hy. rewrite <- (firstn_skipn k l). apply in_or_app. now left.
Qed.

Lemma search_incl (index : FAISS) (query : Vector) (k : nat) :
  incl (VectorIndex.search index query k) (docstore index).
Proof.
  intros y Hy. unfold VectorIndex.search in Hy. apply In_firstn_In in Hy.
  eapply Permutation_in; [apply nearest_first_perm | exact Hy].
Qed.

Lemma search_sorted (index : FAISS) (query : Vector) (k : nat) :
  VectorIndex.near_to_far (VectorIndex.distance_to index query)
                          (VectorIndex.search index query k).
Proof.
  unfold VectorIndex.search.
  set (key := VectorIndex.distance_to index query).
  pose proof (nearest_first_sorted key (docstore index)) as Hs.
  rewrite <- (firstn_skipn k (VectorIndex.nearest_first key (docstore index)))
    in Hs.
  now apply near_to_far_app in Hs.
Qed.

(** The entries a query leaves out are at least as far as those it
    returns, and together they are the whole store. *)
Lemma search_closest (index : FAISS) (query : Vector) (k : nat) :
  exists rest,
    Permutation (VectorIndex.search index query k ++ rest) (docstore index)
    /\ forall a b, In a (VectorIndex.search index query k) -> In b rest ->
                   (VectorIndex.distance_to index query a
                    <= VectorIndex.distance_to index query b)%Q.
Proof.
  unfold VectorIndex.search.
  set (key := VectorIndex.distance_to index query).
  exists (skipn k (VectorIndex.nearest_first key (docstore index))).
  rewrite firstn_skipn. split; [apply nearest_first_perm|].
  pose proof (nearest_first_sorted key (docstore index)) as Hs.
  rewrite <- (firstn_skipn k (VectorIndex.nearest_first key (docstore index)))
    in Hs.
  now apply near_to_far_app in Hs.
Qed.

Lemma search_length (index : FAISS) (query : Vector) (k : nat) :
  List.length (VectorIndex.search index query k)
  = Nat.min k (List.length (docstore index)).
Proof.
  unfold VectorIndex.search. rewrite length_firstn.
  now rewrite (Permutation_length (nearest_first_perm _ _)).
Qed.

Lemma search_all (index : FAISS) (query : Vector) (k : nat) :
  List.length (docstore index) <= k ->
  Permutation (VectorIndex.search index query k) (docstore index).
Proof.
  intros Hk. unfold VectorIndex.search.
  rewrite firstn_all2; [apply nearest_first_perm|].
  now rewrite (Permutation_length (nearest_first_perm _ _)).
Qed.

(* --------------------------------------------------------------------- *)
(** ** The retrieval dispatcher *)

Section Dispatcher.
Import PyStr.

Variable ollama_chat : list Event -> option Q -> string -> Outcome string.
Variable embed : list Event -> string -> Outcome Vector.

Lemma invoke_returns (r : VectorStoreRetriever) (question : string)
    (w : World) (v : Vector) :
  embed (trace w) question = Return v ->
  fst (invoke embed r question w)
  = Return (VectorIndex.similarity_search_by_vector
              (vectorstore r) v (search_k r)).
Proof.
  intros Hv. unfold invoke, bind, embed_query, ret. rewrite Hv. reflexivity.
Qed.

(** C1: asked for "project_info" while the project store is null and the
    personal store is not, [get_retriever] hands out the retriever of the
    personal store, and its query returns chunks stored in the personal
    index. *)
Theorem get_retriever_project_falls_back
    (question : string) (w : World) (personal : FAISS) (v : Vector) :
  personal_vector_store (rag_service_instance w) = Some personal ->
  projects_vector_store (rag_service_instance w) = None ->
  embed (trace w) question = Return v ->
  exists retriever chunks,
    get_retriever "project_info" w = (Return (Some retriever), w)
    /\ vectorstore retriever = personal
    /\ fst (invoke embed retriever question w) = Return chunks
    /\ chunks = VectorIndex.similarity_search_by_vector personal v 4
    /\ incl chunks (map snd (docstore personal)).
Proof.
  intros Hpers Hproj Hv.
  exists (VectorIndex.as_retriever personal),
         (VectorIndex.similarity_search_by_vector personal v 4).
  repeat split.
  - unfold get_retriever, bind, get_self. simpl.
    rewrite Hproj, Hpers. reflexivity.
  - now apply invoke_returns.
  - unfold VectorIndex.similarity_search_by_vector.
    apply incl_map, search_incl.
Qed.

(** C10: for a category that is neither "personal_info" nor
    "project_info", [get_retriever] raises nothing and returns the
    retriever of the personal store when there is one and [None]
    otherwise, as it does for a label whose own store is null. *)
Theorem get_retriever_unknown_category (category : string) (w : World) :
  category <> "personal_info" -> category <> "project_info" ->
  get_retriever category w
  = (Return (personal_fallback (rag_service_instance w)), w)
  /\ (projects_vector_store (rag_service_instance w) = None ->
      get_retriever "project_info" w = get_retriever category w)
  /\ (personal_vector_store (rag_service_instance w) = None ->
      get_retriever "personal_info" w = get_retriever category w).
Proof.
  intros Hpers Hproj.
  apply String.eqb_neq in Hpers. apply String.eqb_neq in Hproj.
  assert (Hrun : get_retriever category w
                 = (Return (personal_fallback (rag_service_instance w)), w)).
  { unfold get_retriever, bind, get_self, personal_fallback.
    rewrite Hpers, Hproj.
    destruct (personal_vector_store (rag_service_instance w)),
             (projects_vector_store (rag_service_instance w)); reflexivity. }
  rewrite Hrun. repeat split.
  - intros Hnull. unfold get_retriever, bind, get_self, personal_fallback.
    simpl. rewrite Hnull.
    destruct (personal_vector_store (rag_service_instance w)); reflexivity.
  - intros Hnull. unfold get_retriever, bind, get_self, personal_fallback.
    simpl. rewrite Hnull.
    destruct (projects_vector_store (rag_service_instance w)); reflexivity.
Qed.

Lemma get_retriever_no_index (category : string) (w : World) :
  personal_vector_store (rag_service_instance w) = None ->
  projects_vector_store (rag_service_instance w) = None ->
  get_retriever category w = (Return None, w).
Proof.
  intros Hpers Hproj. unfold get_retriever, bind, get_self.
  rewrite Hpers, Hproj.
  destruct (String.eqb category "personal_info"),
           (String.eqb category "project_info"); reflexivity.
Qed.

(** C2, as the code has it: for every label, when both stores are null
    [get_retriever] raises nothing and returns [None], no retriever and
    so no sequence of chunks; the chat endpoint then answers "Knowledge
      base is not available." without raising and without a retriever
    query. *)
Theorem get_retriever_none_when_no_index
    (category question : string) (w : World) :
  personal_vector_store (rag_service_instance w) = None ->
  projects_vector_store (rag_service_instance w) = None ->
  get_retriever category w = (Return None, w)
  /\ process_chat_message ollama_chat embed (mkChatRequest question) w
     = (Return (mkChatResponse "Knowledge base is not available."),
        after_routing question
          (mkWorld (rag_service_instance w)
                   (Printed ("Received question: " ++ question) :: trace w))).
Proof.
  intros Hpers Hproj. split; [now apply get_retriever_no_index|].
  unfold process_chat_message, try_except.
  unfold bind at 1. unfold print at 1, emit at 1. cbn [message].
  set (w1 := mkWorld (rag_service_instance w)
               (Printed ("Received question: " ++ question) :: trace w)).
  destruct (route_query_returns ollama_chat question w1)
    as (label & Hroute & _).
  unfold bind at 1. rewrite Hroute.
  unfold bind at 1.
  rewrite (get_retriever_no_index label (after_routing question w1))
    by assumption.
  reflexivity.
Qed.

End Dispatcher.

Lemma get_retriever_project_falls_back_witness :
  exists retriever chunks,
    get_retriever "project_info" Samples.personal_only
    = (Return (Some retriever), Samples.personal_only)
    /\ vectorstore retriever = Samples.one Samples.cv
    /\ fst (invoke Samples.embed_length retriever "Which repos?"
              Samples.personal_only) = Return chunks
    /\ chunks = VectorIndex.similarity_search_by_vector
                  (Samples.one Samples.cv) [inject_Z 12] 4
    /\ incl chunks (map snd (docstore (Samples.one Samples.cv))).
Proof.
  apply (get_retriever_project_falls_back Samples.embed_length
           "Which repos?" Samples.personal_only (Samples.one Samples.cv)
           [inject_Z 12]); reflexivity.
Defined.

Lemma get_retriever_unknown_category_witness :
  get_retriever "weather" Samples.personal_only
  = (Return (Some (VectorIndex.as_retriever (Samples.one Samples.cv))),
     Samples.personal_only).
Proof.
  refine (proj1 (get_retriever_unknown_category "weather"
                   Samples.personal_only _ _)); discriminate.
Defined.

Lemma get_retriever_none_when_no_index_witness :
  get_retriever "project_info" initial_world = (Return None, initial_world).
Proof.
  refine (proj1 (get_retriever_none_when_no_index Samples.llm_down
                   Samples.embed_length "project_info" "hi" initial_world
                   _ _)); reflexivity.
Defined.

(** C2 as the claim words it fails: with both stores null there is no
    retriever to query, so [get_retriever] followed by the retriever query
    returns no sequence at all, be it empty; the result is [None]. *)
Lemma no_index_no_sequence :
  get_retriever "project_info" initial_world = (Return None, initial_world)
  /\ ~ (exists retriever w chunks w',
          get_retriever "project_info" initial_world
          = (Return (Some retriever), w)
          /\ invoke Samples.embed_length retriever "hi" w
             = (Return chunks, w')
          /\ chunks = []).
Proof.
  split; [reflexivity|].
  intros (retriever & w & chunks & w' & Hget & _). discriminate Hget.
Qed.

(* --------------------------------------------------------------------- *)
(** ** The chunker *)

Section ChunkerFacts.
Import PyStr.

Lemma take_drop (n : nat) (s : string) : take n s ++ drop n s = s.
Proof.
  revert s. induction n as [|n IH]; intros [|c s]; simpl; try reflexivity.
  now rewrite IH.
Qed.

Lemma length_drop (n : nat) (s : string) :
  String.length (drop n s) = String.length s - n.
Proof.
  revert s. induction n as [|n IH]; intros [|c s]; simpl; auto.
Qed.

Lemma length_take (n : nat) (s : string) :
  String.length (take n s) = Nat.min n (String.length s).
Proof.
  revert s. induction n as [|n IH]; intros [|c s]; simpl; auto.
Qed.

Lemma drop_drop (n m : nat) (s : string) :
  drop n (drop m s) = drop (m + n) s.
Proof.
  revert s. induction m as [|m IH]; intros s; simpl; [reflexivity|].
  destruct s as [|c s]; [now destruct n | apply IH].
Qed.

Lemma drop_app_long (n : nat) (s t : string) :
  n <= String.length s -> drop n (s ++ t) = drop n s ++ t.
Proof.
  revert s. induction n as [|n IH]; intros s Hn; [reflexivity|].
  destruct s as [|c s]; simpl in *; [lia|]. apply IH. lia.
Qed.

Lemma append_empty_r (s : string) : s ++ EmptyString = s.
Proof. induction s as [|c s IH]; simpl; congruence. Qed.

Lemma concat_cons (x : string) (l : list string) :
  String.concat EmptyString (x :: l) = x ++ String.concat EmptyString l.
Proof.
  destruct l as [|y l]; simpl; [now rewrite append_empty_r | reflexivity].
Qed.

Lemma split_text_short (size overlap : nat) (body : string) :
  String.length body <= size ->
  Chunker.split_text size overlap body
  = match body with EmptyString => [] | _ => [body] end.
Proof.
  intros Hshort. rewrite Chunker.split_text_equation_1.
  destruct (le_lt_dec (String.length body) size) as [Hle|Hlt]; [|lia].
  destruct body; reflexivity.
Qed.

Lemma split_text_long (size overlap : nat) (body : string) :
  overlap < size -> size < String.length body ->
  Chunker.split_text size overlap body
  = take size body
    :: Chunker.split_text size overlap (drop (size - overlap) body).
Proof.
  intros Hcfg Hlong. rewrite Chunker.split_text_equation_1.
  destruct (le_lt_dec (String.length body) size) as [Hle|Hlt]; [lia|].
  simpl.
  destruct (le_lt_dec size overlap) as [Hbad|Hok]; [lia|].
  reflexivity.
Qed.

(** The parts the chunks add after the first one are the body past the
    overlap. *)
Lemma new_parts (size overlap : nat) (body : string) :
  overlap < size ->
  String.concat EmptyString
    (map (drop overlap) (Chunker.split_text size overlap body))
  = drop overlap body.
Proof.
  intros Hcfg.
  remember (String.length body) as n eqn:Hn. revert body Hn.
  induction n as [n IH] using lt_wf_ind. intros body Hn.
  destruct (le_lt_dec (String.length body) size) as [Hshort|Hlong].
  - rewrite split_text_short by assumption.
    destruct body; [now destruct overlap|].
    simpl map. now rewrite concat_cons, append_empty_r.
  - rewrite split_text_long by assumption.
    simpl map. rewrite concat_cons.
    rewrite (IH (String.length (drop (size - overlap) body)))
      by (rewrite ?length_drop; lia || reflexivity).
    rewrite drop_drop.
    replace (size - overlap + overlap) with size by lia.
    rewrite <- (take_drop size body) at 3.
    rewrite drop_app_long by (rewrite length_take; lia).
    reflexivity.
Qed.

Lemma reconstruct_split_text (size overlap : nat) (body : string) :
  overlap < size ->
  Chunker.reconstruct overlap (Chunker.split_text size overlap body) = body.
Proof.
  intros Hcfg.
  destruct (le_lt_dec (String.length body) size) as [Hshort|Hlong].
  - rewrite split_text_short by assumption.
    destruct body; [reflexivity|]. simpl. now rewrite append_empty_r.
  - rewrite split_text_long by assumption.
    unfold Chunker.reconstruct. rewrite new_parts by assumption.
    rewrite drop_drop.
    replace (size - overlap + overlap) with size by lia.
    apply take_drop.
Qed.

Lemma split_text_bounded (size overlap : nat) (body : string) :
  overlap < size ->
  Forall (fun chunk => String.length chunk <= size)
         (Chunker.split_text size overlap body).
Proof.
  intros Hcfg.
  remember (String.length body) as n eqn:Hn. revert body Hn.
  induction n as [n IH] using lt_wf_ind. intros body Hn.
  destruct (le_lt_dec (String.length body) size) as [Hshort|Hlong].
  - rewrite split_text_short by assumption.
    destruct body; repeat constructor. exact Hshort.
  - rewrite split_text_long by assumption. constructor.
    + rewrite length_take. lia.
    + apply (IH (String.length (drop (size - overlap) body)));
        [rewrite length_drop; lia | reflexivity].
Qed.

(** C7: splitting a document body with [chunk_size] 1000 and
    [chunk_overlap] 100, then concatenating the chunks with each chunk's
    overlap with its predecessor removed, gives the body back, for a
    body of any length; nothing is dropped, and no chunk is longer than
    1000 characters. *)
Theorem chunks_reconstruct_body (d : Document) :
  let chunks := Chunker.split_document 1000 100 d in
  Chunker.reconstruct 100 (map page_content chunks) = page_content d
  /\ Forall (fun chunk => String.length (page_content chunk) <= 1000
                          /\ metadata chunk = metadata d) chunks.
Proof.
  cbv zeta. unfold Chunker.split_document. split.
  - rewrite map_map. simpl. rewrite map_id.
    apply reconstruct_split_text. lia.
  - apply Forall_map. simpl.
    eapply Forall_impl; [|apply (split_text_bounded 1000 100); lia].
    intros chunk Hlen. now split.
Qed.

End ChunkerFacts.

(* --------------------------------------------------------------------- *)
(** ** Top-k queries *)

(** C8: on an index of ten chunks a query for the default four results
    returns exactly four chunks, nearest first under the metric of the
    index and none farther than a chunk left out; a query for more results
    than the index holds returns all stored chunks, nearest first. *)
Theorem top_k_query (index : FAISS) (query : Vector) :
  List.length (docstore index) = 10 ->
  search_k (VectorIndex.as_retriever index) = 4
  /\ VectorIndex.similarity_search_by_vector index query 4
     = map snd (VectorIndex.search index query 4)
  /\ List.length (VectorIndex.similarity_search_by_vector index query 4) = 4
  /\ VectorIndex.near_to_far (VectorIndex.distance_to index query)
       (VectorIndex.search index query 4)
  /\ (exists rest,
        Permutation (VectorIndex.search index query 4 ++ rest) (docstore index)
        /\ forall a b, In a (VectorIndex.search index query 4) -> In b rest ->
             (VectorIndex.distance_to index query a
              <= VectorIndex.distance_to index query b)%Q)
  /\ forall k, 10 < k ->
       Permutation (VectorIndex.similarity_search_by_vector index query k)
                   (map snd (docstore index))
       /\ List.length (VectorIndex.similarity_search_by_vector index query k)
          = 10
       /\ VectorIndex.near_to_far (VectorIndex.distance_to index query)
            (VectorIndex.search index query k).
Proof.
  intros Hten. unfold VectorIndex.similarity_search_by_vector.
  repeat split.
  - now rewrite length_map, search_length, Hten.
  - apply search_sorted.
  - apply search_closest.
  - apply Permutation_map, search_all. lia.
  - rewrite length_map, search_length, Hten. lia.
  - apply search_sorted.
Qed.

Lemma top_k_query_witness :
  map page_content
      (VectorIndex.similarity_search_by_vector Samples.ten [0%Q] 4)
  = ["j"; "b"; "d"; "f"]
  /\ List.length (VectorIndex.similarity_search_by_vector Samples.ten [0%Q] 4)
     = 4
  /\ List.length (VectorIndex.similarity_search_by_vector Samples.ten [0%Q] 20)
     = 10.
Proof.
  pose proof (top_k_query Samples.ten [0%Q] eq_refl)
    as (_ & _ & Hfour & _ & _ & Hall).
  split; [reflexivity|]. split; [exact Hfour|].
  exact (proj1 (proj2 (Hall 20 ltac:(lia)))).
Defined.

(* --------------------------------------------------------------------- *)
(** ** The knowledge base builder *)

Section Builder.
Import PyStr.

Variable embed : list Event -> string -> Outcome Vector.

Lemma keeps_service_ret {A : Type} (a : A) : keeps_service (ret a).
Proof. intros w. reflexivity. Qed.

Lemma keeps_service_raise {A : Type} (e : Exn) :
  keeps_service (@raise A e).
Proof. intros w. reflexivity. Qed.

Lemma keeps_service_emit (ev : Event) : keeps_service (emit ev).
Proof. intros w. reflexivity. Qed.

Lemma keeps_service_bind {A B : Type} (m : Py A) (f : A -> Py B) :
  keeps_service m -> (forall a, keeps_service (f a)) ->
  keeps_service (bind m f).
Proof.
  intros Hm Hf w. unfold bind. specialize (Hm w).
  destruct (m w) as [[a|e] w1]; simpl in *; [|exact Hm].
  now rewrite Hf.
Qed.

Lemma keeps_service_embed_documents (texts : list string) :
  keeps_service (embed_documents embed texts).
Proof. intros w. reflexivity. Qed.

(** Building a store assigns no field of the service. *)
Lemma _create_vector_store_frame (documents : list Document) :
  keeps_service (_create_vector_store embed documents).
Proof.
  unfold _create_vector_store.
  destruct documents as [|d documents]; [apply keeps_service_ret|].
  apply keeps_service_bind.
  { apply keeps_service_bind; intros; [apply keeps_service_emit|].
    apply keeps_service_ret. }
  intros chunks. apply keeps_service_bind; [apply keeps_service_emit|].
  intros _. apply keeps_service_bind; [|intros; apply keeps_service_ret].
  unfold FAISS_from_documents.
  apply keeps_service_bind; [apply keeps_service_embed_documents|].
  intros vectors. destruct chunks;
    [apply keeps_service_raise | apply keeps_service_ret].
Qed.

(** [build_knowledge_bases], step by step. *)
Lemma build_knowledge_bases_run
    (personal_docs project_docs : list Document) (w : World) :
  build_knowledge_bases embed personal_docs project_docs w
  = match _create_vector_store embed personal_docs
            (snd (print "  -> Building 'Personal Info' knowledge base..." w))
    with
    | (Raise e, w1) => (Raise e, w1)
    | (Return personal, w1) =>
        match _create_vector_store embed project_docs
                (snd ((set_personal_vector_store personal ;;
                       print "  -> Building 'Project Info' knowledge base...")%py
                        w1))
        with
        | (Raise e, w2) => (Raise e, w2)
        | (Return projects, w2) =>
            (set_projects_vector_store projects ;;
             print "Knowledge bases built successfully.")%py w2
        end
    end.
Proof.
  unfold build_knowledge_bases.
  unfold bind at 1. unfold print at 1. unfold emit at 1.
  unfold bind at 1. cbn [snd print emit].
  destruct (_create_vector_store embed personal_docs _)
    as [[personal|e] w1]; [|reflexivity].
  unfold bind at 1. unfold set_personal_vector_store at 1.
  unfold bind at 1. unfold print at 1. unfold emit at 1.
  unfold bind at 1. cbn.
  destruct (_create_vector_store embed project_docs _)
    as [[projects|e] w2]; reflexivity.
Qed.

(** C6: [_create_vector_store] on an empty list returns [None] and
    leaves the world as it was, so that neither the splitter nor the
    embedder is called; in [build_knowledge_bases] an empty collection
    leaves the store of its domain null, and raises nothing. *)
Theorem empty_collection_null_index (w : World) :
  _create_vector_store embed [] w = (Return None, w)
  /\ (forall project_docs,
        personal_vector_store
          (rag_service_instance
             (snd (build_knowledge_bases embed [] project_docs w)))
        = None)
  /\ (forall personal_docs personal w1,
        _create_vector_store embed personal_docs
          (snd (print "  -> Building 'Personal Info' knowledge base..." w))
        = (Return personal, w1) ->
        fst (build_knowledge_bases embed personal_docs [] w) = Return tt
        /\ projects_vector_store
             (rag_service_instance
                (snd (build_knowledge_bases embed personal_docs [] w)))
           = None)
  /\ build_knowledge_bases embed [] [] w
     = (Return tt,
        mkWorld (mkRAGService None None)
          (Printed "Knowledge bases built successfully."
           :: Printed "  -> Building 'Project Info' knowledge base..."
           :: Printed "  -> Building 'Personal Info' knowledge base..."
           :: trace w)).
Proof.
  split; [reflexivity|]. split; [|split].
  - intros project_docs. rewrite build_knowledge_bases_run.
    cbn [_create_vector_store ret].
    match goal with
    | |- context [_create_vector_store embed project_docs ?w0] =>
        pose proof (_create_vector_store_frame project_docs w0) as Hframe;
        destruct (_create_vector_store embed project_docs w0)
          as [[projects|e] w2]
    end; simpl in *; now rewrite Hframe.
  - intros personal_docs personal w1 Hpers.
    rewrite build_knowledge_bases_run, Hpers. split; reflexivity.
  - reflexivity.
Qed.

(** C3, as the code has it: when the personal build raises,
    [build_knowledge_bases] stops there and raises the same exception,
    the project build is not attempted and both stores keep their
    values; when the personal build returns and the project build
    raises, the personal store holds the index built and the exception
    is raised to the caller. *)
Theorem build_knowledge_bases_propagates
    (personal_docs project_docs : list Document) (w : World) :
  (forall e w1,
      _create_vector_store embed personal_docs
        (snd (print "  -> Building 'Personal Info' knowledge base..." w))
      = (Raise e, w1) ->
      build_knowledge_bases embed personal_docs project_docs w
      = (Raise e, w1)
      /\ rag_service_instance w1 = rag_service_instance w)
  /\ (forall personal w1 e w2,
        _create_vector_store embed personal_docs
          (snd (print "  -> Building 'Personal Info' knowledge base..." w))
        = (Return personal, w1) ->
        _create_vector_store embed project_docs
          (snd ((set_personal_vector_store personal ;;
                 print "  -> Building 'Project Info' knowledge base...")%py
                  w1))
        = (Raise e, w2) ->
        build_knowledge_bases embed personal_docs project_docs w
        = (Raise e, w2)
        /\ personal_vector_store (rag_service_instance w2) = personal
        /\ projects_vector_store (rag_service_instance w2)
           = projects_vector_store (rag_service_instance w)).
Proof.
  split.
  - intros e w1 Hfail. split.
    + now rewrite build_knowledge_bases_run, Hfail.
    + pose proof (_create_vector_store_frame personal_docs
                    (snd (print "  -> Building 'Personal Info' knowledge base..." w)))
        as Hframe.
      rewrite Hfail in Hframe. exact Hframe.
  - intros personal w1 e w2 Hpers Hproj.
    pose proof (_create_vector_store_frame personal_docs
                  (snd (print "  -> Building 'Personal Info' knowledge base..." w)))
      as Hframe1.
    rewrite Hpers in Hframe1. simpl in Hframe1.
    match type of Hproj with
    | _create_vector_store _ _ ?w0 = _ =>
        pose proof (_create_vector_store_frame project_docs w0) as Hframe2
    end.
    rewrite Hproj in Hframe2. simpl in Hframe2.
    split; [|split].
    + now rewrite build_knowledge_bases_run, Hpers, Hproj.
    + now rewrite Hframe2.
    + rewrite Hframe2. simpl. now rewrite Hframe1.
Qed.

End Builder.

Lemma empty_collection_null_index_witness :
  fst (build_knowledge_bases Samples.embed_length [Samples.cv] []
         initial_world) = Return tt
  /\ projects_vector_store
       (rag_service_instance
          (snd (build_knowledge_bases Samples.embed_length [Samples.cv] []
                  initial_world)))
     = None.
Proof.
  eapply (proj1 (proj2 (proj2
            (empty_collection_null_index Samples.embed_length initial_world)))
            [Samples.cv]).
  reflexivity.
Defined.

Lemma build_knowledge_bases_propagates_witness :
  fst (build_knowledge_bases Samples.embed_length [Samples.broken]
         [Samples.repo] initial_world)
  = Raise (Exception "ModelUnavailable").
Proof.
  refine (f_equal fst
            (proj1 (proj1 (build_knowledge_bases_propagates
                             Samples.embed_length [Samples.broken]
                             [Samples.repo] initial_world)
                      (Exception "ModelUnavailable")
                      (snd (_create_vector_store Samples.embed_length
                              [Samples.broken]
                              (snd (print "  -> Building 'Personal Info' knowledge base..."
                                      initial_world))))
                      _))).
  reflexivity.
Defined.

(** C3 as the claim words it fails: the embedder cannot embed the
    personal document, the project document alone builds into an index,
    and yet [build_knowledge_bases] raises before it starts the project
    build, whose store stays null. *)
Lemma personal_failure_aborts_project_build :
  let run := build_knowledge_bases Samples.embed_length [Samples.broken]
               [Samples.repo] initial_world in
  (exists store w,
      _create_vector_store Samples.embed_length [Samples.repo] initial_world
      = (Return (Some store), w))
  /\ fst run = Raise (Exception "ModelUnavailable")
  /\ projects_vector_store (rag_service_instance (snd run)) = None
  /\ ~ In "  -> Building 'Project Info' knowledge base..." (printed (snd run))
  /\ ~ In (SplitCall [Samples.repo]) (trace (snd run)).
Proof.
  cbv zeta. split; [|split; [|split; [|split]]].
  - eexists. eexists. reflexivity.
  - reflexivity.
  - reflexivity.
  - vm_compute. intros [H|[H|[H|[]]]]; discriminate H.
  - vm_compute. intros [H|[H|[H|[H|[H|[]]]]]]; discriminate H.
Qed.

(* --------------------------------------------------------------------- *)
(** ** The chat endpoint and the dispatcher, beyond the claims *)

Section Endpoint.
Import PyStr.

Variable ollama_chat : list Event -> option Q -> string -> Outcome string.
Variable embed : list Event -> string -> Outcome Vector.

Lemma keeps_service_try_except {A : Type} (body : Py A)
    (handler : Exn -> Py A) :
  keeps_service body -> (forall e, keeps_service (handler e)) ->
  keeps_service (try_except body handler).
Proof.
  intros Hb Hh w. unfold try_except. specialize (Hb w).
  destruct (body w) as [[a|e] w1]; simpl in *; [exact Hb|].
  now rewrite Hh.
Qed.

Lemma keeps_service_chat (temperature : option Q) (prompt : string) :
  keeps_service (chat ollama_chat temperature prompt).
Proof. intros w. reflexivity. Qed.

Lemma keeps_service_route_query (query : string) :
  keeps_service (route_query ollama_chat query).
Proof.
  intros w. destruct (route_query_returns ollama_chat query w)
    as (label & Hrun & _).
  now rewrite Hrun.
Qed.

Lemma keeps_service_invoke (r : VectorStoreRetriever) (question : string) :
  keeps_service (invoke embed r question).
Proof.
  intros w. unfold invoke, bind, embed_query, ret.
  destruct (embed (trace w) question); reflexivity.
Qed.

(** The three ways [get_retriever] ends: the retriever of one of the two
    stores, or [None]; it raises nothing and assigns nothing. *)
Lemma get_retriever_cases (category : string) (w : World) :
  exists r w',
    get_retriever category w = (Return r, w')
    /\ rag_service_instance w' = rag_service_instance w
    /\ (r = None
        \/ exists store,
             r = Some (VectorIndex.as_retriever store)
             /\ (personal_vector_store (rag_service_instance w) = Some store
                 \/ projects_vector_store (rag_service_instance w)
                    = Some store)).
Proof.
  unfold get_retriever, bind, get_self, print, emit, ret.
  destruct (String.eqb category "personal_info"),
           (String.eqb category "project_info"),
           (personal_vector_store (rag_service_instance w)) as [p|] eqn:Hp,
           (projects_vector_store (rag_service_instance w)) as [q|] eqn:Hq;
    do 2 eexists; (split; [reflexivity|]); (split; [reflexivity|]);
    solve [ now left | right; eexists; split; [reflexivity|]; auto ].
Qed.

Lemma keeps_service_get_retriever (category : string) :
  keeps_service (get_retriever category).
Proof.
  intros w. destruct (get_retriever_cases category w)
    as (r & w' & Hrun & Hsame & _).
  now rewrite Hrun.
Qed.

(** X1: the chat endpoint answers every request: whatever the model and
    the embedder do, it returns a response and raises nothing. *)
Theorem process_chat_message_always_answers
    (request : ChatRequest) (w : World) :
  exists response,
    fst (process_chat_message ollama_chat embed request w) = Return response.
Proof.
  unfold process_chat_message, try_except.
  match goal with
  | |- context [match ?body w with _ => _ end] =>
      destruct (body w) as [[response|e] w1]
  end.
  - now exists response.
  - eexists. reflexivity.
Qed.

(** X2: answering a request is read-only on the service: neither
    [get_retriever], nor the retriever query, nor the endpoint as a whole
    assigns a vector store. *)
Theorem query_time_keeps_stores
    (request : ChatRequest) (category question : string)
    (r : VectorStoreRetriever) (w : World) :
  rag_service_instance
    (snd (process_chat_message ollama_chat embed request w))
  = rag_service_instance w
  /\ rag_service_instance (snd (get_retriever category w))
     = rag_service_instance w
  /\ rag_service_instance (snd (invoke embed r question w))
     = rag_service_instance w.
Proof.
  split; [|split; [apply keeps_service_get_retriever
                  | apply keeps_service_invoke]].
  revert w. change (keeps_service
                      (process_chat_message ollama_chat embed request)).
  unfold process_chat_message.
  apply keeps_service_try_except.
  - apply keeps_service_bind; [apply keeps_service_emit|]. intros _.
    apply keeps_service_bind; [apply keeps_service_route_query|].
    intros label.
    apply keeps_service_bind; [apply keeps_service_get_retriever|].
    intros [retriever|]; [|apply keeps_service_ret].
    apply keeps_service_bind; [apply keeps_service_invoke|]. intros docs.
    apply keeps_service_bind; [apply keeps_service_emit|]. intros _.
    apply keeps_service_bind; [apply keeps_service_chat|]. intros reply.
    apply keeps_service_ret.
  - intros e. apply keeps_service_bind; [apply keeps_service_emit|].
    intros _. apply keeps_service_ret.
Qed.

Lemma try_except_bind {A B : Type} (m : Py A) (f : A -> Py B)
    (handler : Exn -> Py B) (w w' : World) (a : A) :
  m w = (Return a, w') ->
  try_except (bind m f) handler w = try_except (f a) handler w'.
Proof. intros Hm. unfold try_except, bind. now rewrite Hm. Qed.

(** The endpoint up to the choice of a retriever: the question is
    printed, routed, and [get_retriever] is asked with the label. *)
Lemma process_chat_message_run (request : ChatRequest) (w : World) :
  exists label r w2,
    (label = "personal_info" \/ label = "project_info")
    /\ get_retriever label
         (after_routing (message request)
            (mkWorld (rag_service_instance w)
               (Printed ("Received question: " ++ message request)
                :: trace w)))
       = (Return r, w2)
    /\ rag_service_instance w2 = rag_service_instance w
    /\ (r = None
        \/ exists store,
             r = Some (VectorIndex.as_retriever store)
             /\ (personal_vector_store (rag_service_instance w) = Some store
                 \/ projects_vector_store (rag_service_instance w)
                    = Some store))
    /\ process_chat_message ollama_chat embed request w
       = try_except
           (match r with
            | None => ret (mkChatResponse "Knowledge base is not available.")
            | Some retriever =>
                relevant_docs <- invoke embed retriever (message request) ;;
                print ("--- Retrieved Context from '" ++ label ++ "' ---" ++ nl
                       ++ join (nl ++ nl) (map page_content relevant_docs)
                       ++ nl ++ "-------------------------") ;;
                response <- chat ollama_chat None
                              (PROMPT_TEMPLATE
                                 (join (nl ++ nl)
                                    (map page_content relevant_docs))
                                 (message request)) ;;
                ret (mkChatResponse response)
            end)%py
           (fun e =>
              print ("An error occurred in the chat endpoint: "
                     ++ exn_message e) ;;
              ret (mkChatResponse
                     "Sorry, I encountered an error. Please try again."))%py
           w2.
Proof.
  set (w0 := mkWorld (rag_service_instance w)
               (Printed ("Received question: " ++ message request)
                :: trace w)).
  destruct (route_query_returns ollama_chat (message request) w0)
    as (label & Hroute & Hlabel).
  destruct (get_retriever_cases label (after_routing (message request) w0))
    as (r & w2 & Hget & Hsame & Hr).
  exists label, r, w2. repeat split; try assumption.
  unfold process_chat_message.
  rewrite (try_except_bind _ _ _ w w0 tt) by reflexivity.
  rewrite (try_except_bind _ _ _ w0 _ label Hroute).
  rewrite (try_except_bind _ _ _ _ w2 r Hget).
  reflexivity.
Qed.

(** X3: with a personal store in place, a failure of the embedder at
    query time, or of the model that writes the answer, does not reach
    the caller: the endpoint answers with its apology. *)
Theorem process_chat_message_apologises
    (request : ChatRequest) (w : World) (store : FAISS) (e : Exn) :
  personal_vector_store (rag_service_instance w) = Some store ->
  (forall history, embed history (message request) = Raise e)
  \/ (forall history prompt, ollama_chat history None prompt = Raise e) ->
  fst (process_chat_message ollama_chat embed request w)
  = Return (mkChatResponse "Sorry, I encountered an error. Please try again.").
Proof.
  intros Hpers Hdown.
  destruct (process_chat_message_run request w)
    as (label & r & w2 & _ & Hget & _ & Hr & Hrun).
  rewrite Hrun. clear Hrun.
  destruct Hr as [->|(chosen & -> & _)].
  - exfalso. revert Hget.
    unfold get_retriever, bind, get_self, print, emit, ret, after_routing.
    cbn [rag_service_instance]. rewrite Hpers.
    destruct (String.eqb label "personal_info"),
             (String.eqb label "project_info"),
             (projects_vector_store (rag_service_instance w));
      discriminate.
  - unfold try_except, bind, invoke, bind, embed_query, chat, print, emit, ret.
    destruct Hdown as [Hembed|Hllm].
    + rewrite Hembed. reflexivity.
    + destruct (embed (trace w2) (message request));
        [rewrite Hllm|]; reflexivity.
Qed.

(** X4: an answer that is neither of the two fixed messages is grounded:
    it is the reply of the model to the prompt template filled with the
    question and with the four nearest chunks of one of the two stores of
    the service. *)
Theorem process_chat_message_grounded
    (request : ChatRequest) (w : World) (reply : string) :
  fst (process_chat_message ollama_chat embed request w)
  = Return (mkChatResponse reply) ->
  reply <> "Knowledge base is not available." ->
  reply <> "Sorry, I encountered an error. Please try again." ->
  exists store v history,
    (personal_vector_store (rag_service_instance w) = Some store
     \/ projects_vector_store (rag_service_instance w) = Some store)
    /\ (exists history', embed history' (message request) = Return v)
    /\ ollama_chat history None
         (PROMPT_TEMPLATE
            (join (nl ++ nl)
               (map page_content
                  (VectorIndex.similarity_search_by_vector store v 4)))
            (message request))
       = Return reply.
Proof.
  intros Hans Hkb Hsorry.
  destruct (process_chat_message_run request w)
    as (label & r & w2 & _ & _ & _ & Hr & Hrun).
  rewrite Hrun in Hans. clear Hrun.
  destruct Hr as [->|(store & -> & Hstore)].
  - simpl in Hans. congruence.
  - revert Hans.
    unfold try_except, bind, invoke, bind, embed_query, chat, print, emit, ret.
    destruct (embed (trace w2) (message request)) as [v|e] eqn:Hv;
      [|simpl; congruence].
    cbn [VectorIndex.as_retriever vectorstore search_k VectorIndex.default_k
         trace rag_service_instance].
    match goal with
    | |- context [ollama_chat ?h None ?p] =>
        destruct (ollama_chat h None p) as [answer|e] eqn:Hllm
    end; [|simpl; congruence].
    simpl. intros Heq. injection Heq as <-.
    exists store, v. eexists. split; [exact Hstore|].
    split; [eauto | exact Hllm].
Qed.

(** X5: a question that the model files under "project_info" alone is
    answered from the project store when there is one: the context put
    into the prompt of the answer is made of the four chunks of the
    project store nearest to the question, joined by blank lines, also
    when a personal store exists. *)
Theorem process_chat_message_uses_project_store
    (request : ChatRequest) (w : World) (reply : string)
    (store : FAISS) (v : Vector) :
  (forall history,
     ollama_chat history (Some 0%Q) (route_prompt (message request))
     = Return reply) ->
  contains "project_info" (lower reply) = true ->
  contains "personal_info" (lower reply) = false ->
  projects_vector_store (rag_service_instance w) = Some store ->
  (forall history, embed history (message request) = Return v) ->
  exists history,
    fst (process_chat_message ollama_chat embed request w)
    = match ollama_chat history None
              (PROMPT_TEMPLATE
                 (join (nl ++ nl)
                    (map page_content
                       (VectorIndex.similarity_search_by_vector store v 4)))
                 (message request))
      with
      | Return text => Return (mkChatResponse text)
      | Raise _ =>
          Return (mkChatResponse
                    "Sorry, I encountered an error. Please try again.")
      end.
Proof.
  intros Hreply Hproject Hpersonal Hstore Hembed.
  unfold process_chat_message.
  set (w0 := mkWorld (rag_service_instance w)
               (Printed ("Received question: " ++ message request)
                :: trace w)).
  rewrite (try_except_bind _ _ _ w w0 tt) by reflexivity.
  assert (Hroute : route_query ollama_chat (message request) w0
                   = (Return "project_info",
                      after_routing (message request) w0)).
  { destruct (route_query_returns ollama_chat (message request) w0)
      as (label & Hrun & _).
    pose proof (route_query_on_reply ollama_chat (message request) reply w0
                  (Hreply _)) as Hlabel.
    rewrite Hrun in Hlabel. cbn [fst] in Hlabel.
    rewrite Hpersonal, Hproject in Hlabel. now rewrite Hrun, Hlabel. }
  rewrite (try_except_bind _ _ _ w0 _ _ Hroute).
  assert (Hget : get_retriever "project_info"
                   (after_routing (message request) w0)
                 = (Return (Some (VectorIndex.as_retriever store)),
                    mkWorld (rag_service_instance w)
                      (Printed " -> Routing to 'Project Info' knowledge base."
                       :: trace (after_routing (message request) w0)))).
  { unfold get_retriever, bind, get_self. simpl. rewrite Hstore.
    destruct (personal_vector_store (rag_service_instance w)); reflexivity. }
  rewrite (try_except_bind _ _ _ _ _ _ Hget).
  unfold try_except, bind, invoke, bind, embed_query, chat, print, emit, ret.
  rewrite Hembed.
  cbn [VectorIndex.as_retriever vectorstore search_k VectorIndex.default_k
       trace rag_service_instance].
  unfold VectorIndex.default_k.
  match goal with
  | |- context [ollama_chat ?h None ?p] =>
      exists h; destruct (ollama_chat h None p)
  end; reflexivity.
Qed.

End Endpoint.

Lemma process_chat_message_apologises_witness :
  fst (process_chat_message Samples.llm_down Samples.embed_length
         (mkChatRequest "Who is Alyyan?") Samples.personal_only)
  = Return (mkChatResponse "Sorry, I encountered an error. Please try again.").
Proof.
  apply (process_chat_message_apologises Samples.llm_down
           Samples.embed_length (mkChatRequest "Who is Alyyan?")
           Samples.personal_only (Samples.one Samples.cv)
           (Exception "ConnectionError")).
  - reflexivity.
  - right. reflexivity.
Defined.

Lemma process_chat_message_grounded_witness :
  exists store v history,
    (personal_vector_store (rag_service_instance Samples.personal_only)
     = Some store
     \/ projects_vector_store (rag_service_instance Samples.personal_only)
        = Some store)
    /\ (exists history',
          Samples.embed_length history' "Who is Alyyan?" = Return v)
    /\ Samples.llm_says "Alyyan is a backend engineer." history None
         (PROMPT_TEMPLATE
            (PyStr.join (PyStr.nl ++ PyStr.nl)
               (map page_content
                  (VectorIndex.similarity_search_by_vector store v 4)))
            "Who is Alyyan?")
       = Return "Alyyan is a backend engineer.".
Proof.
  apply (process_chat_message_grounded
           (Samples.llm_says "Alyyan is a backend engineer.")
           Samples.embed_length (mkChatRequest "Who is Alyyan?")
           Samples.personal_only "Alyyan is a backend engineer.").
  - reflexivity.
  - discriminate.
  - discriminate.
Defined.

(* --------------------------------------------------------------------- *)
(** ** Routing and selection, beyond the claims *)

Section Selection.
Import PyStr.

Variable ollama_chat : list Event -> option Q -> string -> Outcome string.
Variable embed : list Event -> string -> Outcome Vector.

(** X6: a label whose own store is built gets that store: "personal_info"
    the personal one, "project_info" the project one even when a personal
    store exists; the choice is printed. *)
Theorem get_retriever_routes (w : World) (store : FAISS) :
  (personal_vector_store (rag_service_instance w) = Some store ->
   get_retriever "personal_info" w
   = (Return (Some (VectorIndex.as_retriever store)),
      mkWorld (rag_service_instance w)
        (Printed " -> Routing to 'Personal Info' knowledge base."
         :: trace w)))
  /\ (projects_vector_store (rag_service_instance w) = Some store ->
      get_retriever "project_info" w
      = (Return (Some (VectorIndex.as_retriever store)),
         mkWorld (rag_service_instance w)
           (Printed " -> Routing to 'Project Info' knowledge base."
            :: trace w))).
Proof.
  split; intros Hstore; unfold get_retriever, bind, get_self; simpl;
    rewrite Hstore; [reflexivity|].
  destruct (personal_vector_store (rag_service_instance w)); reflexivity.
Qed.

(** X7: [get_retriever] returns [None] exactly when the personal store is
    null and the request is not one for "project_info" with a project
    store in place.  So the fallback goes one way only: "personal_info"
    with a null personal store gets no retriever even when the project
    store is built. *)
Theorem get_retriever_none_iff (category : string) (w : World) :
  fst (get_retriever category w) = Return None
  <-> personal_vector_store (rag_service_instance w) = None
      /\ (category = "project_info" ->
          projects_vector_store (rag_service_instance w) = None).
Proof.
  unfold get_retriever, bind, get_self, print, emit, ret.
  destruct (String.eqb_spec category "personal_info") as [Hp|Hp],
           (String.eqb_spec category "project_info") as [Hj|Hj],
           (personal_vector_store (rag_service_instance w)) as [p|],
           (projects_vector_store (rag_service_instance w)) as [q|];
    simpl; split;
    try (intros H; discriminate H);
    try (intros [H _]; discriminate H);
    try (intros [_ H]; specialize (H Hj); discriminate H);
    try (intros _; split; [reflexivity|]; intros H; congruence);
    try reflexivity.
  all: subst; discriminate.
Qed.

(** X8: [route_query] answers "project_info" exactly when the model
    replied and its reply, lower-cased, holds "project_info" and does not
    hold "personal_info". *)
Theorem route_query_project_iff (query : string) (w : World) :
  fst (route_query ollama_chat query w) = Return "project_info"
  <-> exists response,
        ollama_chat (trace w) (Some 0%Q) (route_prompt query)
        = Return response
        /\ contains "project_info" (lower response) = true
        /\ contains "personal_info" (lower response) = false.
Proof.
  destruct (ollama_chat (trace w) (Some 0%Q) (route_prompt query))
    as [response|e] eqn:Hreply.
  - rewrite (route_query_on_reply _ _ _ _ Hreply). split.
    + intros Hlabel. exists response. split; [reflexivity|].
      destruct (contains "personal_info" (lower response));
        [discriminate|].
      destruct (contains "project_info" (lower response));
        [now split | discriminate].
    + intros (r & Hr & Hj & Hp). injection Hr as <-.
      now rewrite Hp, Hj.
  - split.
    + unfold route_query, try_except, bind, chat, ret. rewrite Hreply.
      discriminate.
    + intros (r & Hr & _). discriminate.
Qed.

Lemma prefix_append (needle rest : string) :
  String.prefix needle (needle ++ rest) = true.
Proof.
  induction needle as [|c needle IH]; simpl; [now destruct rest|].
  destruct (ascii_dec c c); [exact IH | congruence].
Qed.

Lemma contains_prefix (needle s : string) :
  String.prefix needle s = true -> contains needle s = true.
Proof. intros H. destruct s; cbn [contains]; now rewrite H. Qed.

Lemma contains_append_l (needle s before : string) :
  contains needle s = true -> contains needle (before ++ s) = true.
Proof.
  intros H. induction before as [|c before IH]; [exact H|].
  change (contains needle (String c (before ++ s)) = true).
  cbn [contains]. rewrite IH. apply orb_true_r.
Qed.

Lemma contains_infix (needle before after : string) :
  contains needle (before ++ needle ++ after) = true.
Proof. apply contains_append_l, contains_prefix, prefix_append. Qed.

(** X9: routing costs one request to the model, made at temperature 0
    with a prompt that holds the question word for word; nothing is
    printed and nothing else happens. *)
Theorem route_query_one_request (query : string) (w : World) :
  snd (route_query ollama_chat query w)
  = mkWorld (rag_service_instance w)
      (ChatCall (Some 0%Q) (route_prompt query) :: trace w)
  /\ contains query (route_prompt query) = true.
Proof.
  split.
  - destruct (route_query_returns ollama_chat query w)
      as (label & Hrun & _).
    now rewrite Hrun.
  - unfold route_prompt.
    do 3 apply contains_append_l.
    apply contains_prefix, prefix_append.
Qed.

End Selection.

(* --------------------------------------------------------------------- *)
(** ** From the build to the first request *)

Section Startup.
Import PyStr.

Variable ollama_chat : list Event -> option Q -> string -> Outcome string.
Variable embed : list Event -> string -> Outcome Vector.

(** A build from at least one document yields a store or raises; it never
    returns [None]. *)
Lemma _create_vector_store_some (d : Document) (documents : list Document)
    (w w' : World) (r : option FAISS) :
  _create_vector_store embed (d :: documents) w = (Return r, w') ->
  exists store, r = Some store.
Proof.
  unfold _create_vector_store, bind, split_documents, bind, emit, print,
    emit, ret, FAISS_from_documents, bind, embed_documents, raise.
  cbn [fst snd trace rag_service_instance].
  match goal with
  | |- context [embed_all embed ?h ?t] => destruct (embed_all embed h t)
  end; [|discriminate].
  destruct (Chunker.split_documents 1000 100 (d :: documents));
    [discriminate|].
  intros H. injection H as <- _. eauto.
Qed.

(** With a personal store in place every category gets a retriever. *)
Lemma get_retriever_with_personal_store (category : string) (w : World)
    (store : FAISS) :
  personal_vector_store (rag_service_instance w) = Some store ->
  exists retriever,
    fst (get_retriever category w) = Return (Some retriever).
Proof.
  intros Hpers. unfold get_retriever, bind, get_self, print, emit, ret.
  rewrite Hpers.
  destruct (String.eqb category "personal_info"),
           (String.eqb category "project_info"),
           (projects_vector_store (rag_service_instance w));
    eexists; reflexivity.
Qed.

(** X10: once [build_knowledge_bases] has returned normally on a personal
    collection that is not empty, [get_retriever] finds a retriever for
    every category string, known or not. *)
Theorem built_personal_store_serves_all
    (personal_docs project_docs : list Document) (w w' : World)
    (category : string) :
  personal_docs <> [] ->
  build_knowledge_bases embed personal_docs project_docs w = (Return tt, w') ->
  exists retriever,
    fst (get_retriever category w') = Return (Some retriever).
Proof.
  intros Hne Hbuild.
  destruct personal_docs as [|d personal_docs]; [congruence|].
  rewrite build_knowledge_bases_run in Hbuild.
  destruct (_create_vector_store embed (d :: personal_docs) _)
    as [[personal|e] w1] eqn:Hpers; [|discriminate].
  apply _create_vector_store_some in Hpers. destruct Hpers as [store ->].
  match type of Hbuild with
  | context [_create_vector_store embed project_docs ?w0] =>
      pose proof (_create_vector_store_frame embed project_docs w0) as Hframe;
      destruct (_create_vector_store embed project_docs w0)
        as [[projects|e] w2]; [|discriminate]
  end.
  simpl in Hframe. injection Hbuild as <-.
  apply get_retriever_with_personal_store with (store := store).
  unfold set_projects_vector_store, bind, print, emit.
  cbn [fst snd rag_service_instance trace personal_vector_store].
  now rewrite Hframe.
Qed.

(** X11: a service built from two empty collections answers every
    request, whatever the model and the embedder do, with "Knowledge base
    is not available.". *)
Theorem empty_build_then_chat (request : ChatRequest) (w : World) :
  fst (process_chat_message ollama_chat embed request
         (snd (build_knowledge_bases embed [] [] w)))
  = Return (mkChatResponse "Knowledge base is not available.").
Proof.
  rewrite build_knowledge_bases_run.
  cbn [_create_vector_store ret snd fst].
  set (w' := snd _).
  destruct (process_chat_message_run ollama_chat embed request w')
    as (label & r & w2 & _ & Hget & _ & _ & Hrun).
  rewrite Hrun.
  rewrite get_retriever_no_index in Hget by reflexivity.
  injection Hget as <- <-. reflexivity.
Qed.

End Startup.

Lemma built_personal_store_serves_all_witness :
  exists retriever,
    fst (get_retriever "weather"
           (snd (build_knowledge_bases Samples.embed_length [Samples.cv] []
                   initial_world)))
    = Return (Some retriever).
Proof.
  apply (built_personal_store_serves_all Samples.embed_length
           [Samples.cv] [] initial_world
           (snd (build_knowledge_bases Samples.embed_length [Samples.cv] []
                   initial_world)) "weather").
  - discriminate.
  - reflexivity.
Defined.

(* --------------------------------------------------------------------- *)
(** ** The GitHub loader *)

Section GitHubFacts.
Import PyStr PyText GitHub.





Lemma append_assoc (a b c : string) : (a ++ b) ++ c = a ++ b ++ c.
Proof. induction a as [|x a IH]; simpl; congruence. Qed.

Lemma keeps_service_lift {A : Type} (o : Outcome A) : keeps_service (lift o).
Proof. intros w. reflexivity. Qed.

Lemma keeps_service_sections_loop (readme : string)
    (sections todo acc : list string) :
  keeps_service (sections_loop readme sections todo acc).
Proof.
  revert acc. induction todo as [|section todo IH]; intros acc;
    [apply keeps_service_ret|].
  cbn [sections_loop]. apply keeps_service_bind.
  - destruct (contains "## " readme); [apply keeps_service_ret|].
    destruct (index section sections);
      [apply keeps_service_ret | apply keeps_service_raise].
  - intros [|].
    + destruct (find descriptive (split nl section)); apply IH.
    + destruct (split nl section) as [|first_line body_lines];
        [apply keeps_service_raise|].
      destruct (whitelisted (lower (strip first_line))); [|apply IH].
      apply keeps_service_bind; [apply keeps_service_emit|].
      intros _. apply IH.
Qed.

Lemma parse_readme_returns (repo : Repository) (w : World) :
  exists summary w',
    _parse_readme_for_relevant_content repo w = (Return summary, w')
    /\ rag_service_instance w' = rag_service_instance w.
Proof.
  unfold _parse_readme_for_relevant_content, try_except.
  match goal with
  | |- context [match ?body w with _ => _ end] =>
      assert (Hkeep : keeps_service body);
      [| specialize (Hkeep w); destruct (body w) as [[summary|e] w1] ]
  end.
  - apply keeps_service_bind; [apply keeps_service_lift|].
    intros readme. apply keeps_service_bind;
      [apply keeps_service_sections_loop|].
    intros. apply keeps_service_ret.
  - eauto.
  - do 2 eexists. split; [reflexivity | exact Hkeep].
Qed.

(** X12: reading a README never fails the caller: whatever the
    repository returns, [_parse_readme_for_relevant_content] returns a
    string and assigns nothing; when the README cannot be fetched or
    decoded the string is empty and nothing is printed. *)
Theorem parse_readme_never_raises (repo : Repository) (w : World) :
  (exists summary w',
      _parse_readme_for_relevant_content repo w = (Return summary, w')
      /\ rag_service_instance w' = rag_service_instance w)
  /\ (forall e, get_readme repo = Raise e ->
        _parse_readme_for_relevant_content repo w = (Return EmptyString, w)).
Proof.
  split; [apply parse_readme_returns|].
  intros e He.
  unfold _parse_readme_for_relevant_content, try_except, bind, lift.
  rewrite He. reflexivity.
Qed.




(** What [load_repo_data] makes of a public repository: the metadata,
    and the body as the stripped core information followed, when the
    README gave a summary, by that summary under its banner. *)
Lemma repos_loop_returns (self : GitHubLoader) (repos : list Repository)
    (acc : list Document) (w : World) :
  Forall (fun repo => private repo = true
                      \/ exists topics, get_topics repo = Return topics)
         repos ->
  exists fresh w',
    repos_loop self repos acc w = (Return (acc ++ fresh)%list, w')
    /\ rag_service_instance w' = rag_service_instance w
    /\ Forall2
         (fun repo doc =>
            metadata doc
            = [("source", if is_self_repo self repo then "self"
                          else "github_project");
               ("repo_name", name repo); ("url", html_url repo)]
            /\ exists topics tail,
                 get_topics repo = Return topics
                 /\ page_content doc
                    = strip (core_info repo topics) ++ tail)
         (filter (fun repo => negb (private repo)) repos) fresh.
Proof.
  intros Hok. revert acc w.
  induction Hok as [|repo repos Hrepo _ IH]; intros acc w.
  - exists [], w. rewrite app_nil_r. repeat split. constructor.
  - cbn [repos_loop filter].
    destruct (private repo) eqn:Hpriv; cbn [negb]; [apply IH|].
    destruct Hrepo as [Hrepo|[topics Htopics]]; [discriminate|].
    unfold bind at 1. unfold print at 1, emit at 1.
    unfold bind at 1. unfold lift at 1. rewrite Htopics.
    unfold bind at 1.
    match goal with
    | |- context [_parse_readme_for_relevant_content repo ?w0] =>
        destruct (parse_readme_returns repo w0)
          as (summary & w1 & Hparse & Hsame1)
    end.
    rewrite Hparse. unfold bind at 1.
    destruct (is_self_repo self repo) eqn:Hself.
    + unfold bind at 1, print at 1, emit at 1, ret at 1.
      match goal with
      | |- context [repos_loop self repos ?acc' ?w2] =>
          destruct (IH acc' w2) as (fresh & w' & Hrun & Hsame & Hdocs)
      end.
      rewrite Hrun. rewrite <- app_assoc. cbn [app].
      do 2 eexists. split; [reflexivity|]. split.
      * rewrite Hsame. exact Hsame1.
      * constructor; [|exact Hdocs]. cbn [metadata page_content].
        rewrite Hself. split; [reflexivity|]. exists topics.
        destruct (truthy summary);
          [eexists; split; [exact Htopics | reflexivity]|].
        exists EmptyString. split; [exact Htopics|].
        now rewrite append_empty_r.
    + unfold ret at 1.
      match goal with
      | |- context [repos_loop self repos ?acc' ?w2] =>
          destruct (IH acc' w2) as (fresh & w' & Hrun & Hsame & Hdocs)
      end.
      rewrite Hrun. rewrite <- app_assoc. cbn [app].
      do 2 eexists. split; [reflexivity|]. split.
      * rewrite Hsame. exact Hsame1.
      * constructor; [|exact Hdocs]. cbn [metadata page_content].
        rewrite Hself. split; [reflexivity|]. exists topics.
        destruct (truthy summary);
          [eexists; split; [exact Htopics | reflexivity]|].
        exists EmptyString. split; [exact Htopics|].
        now rewrite append_empty_r.
Qed.

(** A public repository whose topics cannot be fetched stops the loop
    with an exception. *)
Lemma repos_loop_raises (self : GitHubLoader) (repos : list Repository)
    (acc : list Document) (w : World) :
  Exists (fun repo => private repo = false
                      /\ exists e, get_topics repo = Raise e) repos ->
  exists e w', repos_loop self repos acc w = (Raise e, w').
Proof.
  intros Hbad. revert acc w.
  induction repos as [|repo repos IH]; intros acc w;
    [inversion Hbad|].
  cbn [repos_loop].
  destruct (private repo) eqn:Hpriv; cbn [negb].
  - apply IH. inversion Hbad as [? ? [Hp _]|]; [congruence | assumption].
  - unfold bind at 1. unfold print at 1, emit at 1.
    unfold bind at 1. unfold lift at 1.
    destruct (get_topics repo) as [topics|e] eqn:Htopics; [|eauto].
    assert (Hrest : Exists (fun repo => private repo = false
                              /\ exists e, get_topics repo = Raise e) repos).
    { inversion Hbad as [? ? [_ [e He]]|]; [congruence | assumption]. }
    unfold bind at 1.
    match goal with
    | |- context [_parse_readme_for_relevant_content repo ?w0] =>
        destruct (parse_readme_returns repo w0)
          as (summary & w1 & Hparse & _)
    end.
    rewrite Hparse. unfold bind at 1.
    destruct (is_self_repo self repo).
    + unfold bind at 1, print at 1, emit at 1, ret at 1. now apply IH.
    + unfold ret at 1. now apply IH.
Qed.

(** [load_repo_data] after its opening line: either the user cannot be
    fetched, or the loop over the repositories decides. *)
Lemma load_repo_data_run (self : GitHubLoader) (w : World) :
  fst (load_repo_data self w)
  = match github self (username self) with
    | Raise e => Return []
    | Return (repos, failure) =>
        match repos_loop self repos []
                (mkWorld (rag_service_instance w)
                   (Printed ("Fetching repository data for user '"
                             ++ username self ++ "' from GitHub...")
                    :: trace w))
        with
        | (Raise e, _) => Return []
        | (Return docs, _) =>
            match failure with
            | Some _ => Return []
            | None => Return docs
            end
        end
    end.
Proof.
  unfold load_repo_data. unfold bind at 1. unfold print at 1, emit at 1.
  unfold try_except, bind at 1, lift.
  destruct (github self (username self)) as [[repos failure]|e];
    [|reflexivity].
  cbn [fst snd]. unfold bind at 1.
  destruct (repos_loop self repos [] _) as [[docs|e] w1]; [|reflexivity].
  destruct failure; reflexivity.
Qed.

(** X15: [load_repo_data] never raises, and it is all or nothing: when
    the user cannot be fetched, when the listing of repositories breaks
    off, or when the topics of one public repository cannot be fetched,
    the result is the empty list, also when other repositories were
    processed before. *)
Theorem load_repo_data_all_or_nothing (self : GitHubLoader) (w : World) :
  (exists docs, fst (load_repo_data self w) = Return docs)
  /\ (forall e, github self (username self) = Raise e ->
        fst (load_repo_data self w) = Return [])
  /\ (forall repos failure,
        github self (username self) = Return (repos, failure) ->
        failure <> None
        \/ Exists (fun repo => private repo = false
                               /\ exists e, get_topics repo = Raise e) repos ->
        fst (load_repo_data self w) = Return []).
Proof.
  rewrite load_repo_data_run. repeat split.
  - destruct (github self (username self)) as [[repos failure]|e];
      [|eauto].
    destruct (repos_loop self repos [] _) as [[docs|e] w1]; [|eauto].
    destruct failure; eauto.
  - intros e He. now rewrite He.
  - intros repos failure Huser Hbad. rewrite Huser.
    match goal with
    | |- context [repos_loop self repos [] ?w0] =>
        destruct (repos_loop self repos [] w0) as [[docs|e] w1] eqn:Hloop;
        [|reflexivity];
        destruct failure as [e|]; [reflexivity|];
        destruct Hbad as [Hbad|Hbad]; [congruence|];
        destruct (repos_loop_raises self repos [] w0 Hbad)
          as (e & w' & Hraise)
    end.
    congruence.
Qed.

(** X16: when the listing succeeds and the topics of every public
    repository can be fetched, [load_repo_data] returns one document per
    public repository, in the order of the listing; private repositories
    leave no document.  Each document carries the name and URL of its
    repository and the source "self" when a non-empty [self_repo_name]
    equals the name, and "github_project" otherwise. *)
Theorem load_repo_data_documents
    (self : GitHubLoader) (w : World) (repos : list Repository) :
  github self (username self) = Return (repos, None) ->
  Forall (fun repo => private repo = true
                      \/ exists topics, get_topics repo = Return topics)
         repos ->
  exists docs,
    fst (load_repo_data self w) = Return docs
    /\ Forall2
         (fun repo doc =>
            metadata doc
            = [("source", if is_self_repo self repo then "self"
                          else "github_project");
               ("repo_name", name repo); ("url", html_url repo)])
         (filter (fun repo => negb (private repo)) repos) docs.
Proof.
  intros Huser Hok. rewrite load_repo_data_run, Huser.
  match goal with
  | |- context [repos_loop self repos [] ?w0] =>
      destruct (repos_loop_returns self repos [] w0 Hok)
        as (docs & w1 & Hloop & _ & Hdocs)
  end.
  rewrite Hloop. exists docs. split; [reflexivity|].
  eapply Forall2_impl; [|exact Hdocs]. now intros repo doc [Hmeta _].
Qed.

Lemma rstrip_append_keeps (a b : string) :
  rstrip b <> EmptyString -> rstrip (a ++ b) = a ++ rstrip b.
Proof.
  intros Hb. induction a as [|c a IH]; [reflexivity|].
  cbn [append rstrip]. rewrite IH.
  destruct (a ++ rstrip b) eqn:E; [|reflexivity].
  destruct a; [simpl in E; contradiction | discriminate].
Qed.

Lemma rstrip_nonempty_append_r (a b : string) :
  rstrip b <> EmptyString -> rstrip (a ++ b) <> EmptyString.
Proof.
  intros Hb. rewrite rstrip_append_keeps by assumption.
  destruct a; [exact Hb | discriminate].
Qed.

Lemma rstrip_nonempty_append_l (a b : string) :
  rstrip a <> EmptyString -> rstrip (a ++ b) <> EmptyString.
Proof.
  induction a as [|c a IH]; [intros H; now elim H|].
  cbn [append rstrip]. intros Ha.
  destruct (rstrip (a ++ b)) eqn:E; [|discriminate].
  destruct (rstrip a) eqn:Ea; [exact Ha|].
  exfalso. apply IH; [discriminate | reflexivity].
Qed.

Lemma rstrip_append_solid (a b : string) :
  ends_solid a = true -> rstrip (a ++ b) = a ++ rstrip b.
Proof.
  induction a as [|c a IH]; [discriminate|].
  destruct a as [|d a].
  - simpl. intros Hc. apply negb_true_iff in Hc. rewrite Hc.
    now destruct (rstrip b).
  - intros Ha. change (ends_solid (String d a) = true) in Ha.
    change (rstrip (String c (String d a ++ b))
            = String c (String d a ++ rstrip b)).
    cbn [rstrip]. rewrite (IH Ha). reflexivity.
Qed.

(** The body of a repository document: the core information with the
    white space around it removed.  The indentation of the source text
    stays on its second to fourth line, and what follows "Topics:" ends
    without white space. *)
Lemma strip_core_info (repo : Repository) (topics : list string) :
  strip (core_info repo topics)
  = "Repository Name: " ++ name repo ++ nl ++
    "                    Description: "
    ++ str_of_option (description repo) ++ nl ++
    "                    Primary Language: "
    ++ str_of_option (language repo) ++ nl ++
    "                    Topics:"
    ++ rstrip (" " ++ join ", " topics ++ nl ++ "                    ").
Proof.
  unfold strip, core_info.
  change ("                    Topics: " ++ join ", " topics ++ nl
          ++ "                    ")
    with ("                    Topics:"
          ++ (" " ++ join ", " topics ++ nl ++ "                    ")).
  assert (Htopics :
            rstrip ("                    Topics:"
                    ++ (" " ++ join ", " topics ++ nl
                        ++ "                    "))
            <> EmptyString).
  { apply rstrip_nonempty_append_l. vm_compute. discriminate. }
  repeat (rewrite rstrip_append_keeps;
          [| solve [ repeat (first [ exact Htopics
                                   | apply rstrip_nonempty_append_r ]) ] ]).
  rewrite (rstrip_append_solid "                    Topics:") by reflexivity.
  reflexivity.
Qed.

(** X17: under the same conditions, the body of each document starts
    with the name of its repository after "Repository Name: " and goes
    on, on lines that keep the indentation of the source text, with the
    description, the primary language and "Topics:"; a missing
    description or language reads "None". *)
Theorem load_repo_data_bodies
    (self : GitHubLoader) (w : World) (repos : list Repository) :
  github self (username self) = Return (repos, None) ->
  Forall (fun repo => private repo = true
                      \/ exists topics, get_topics repo = Return topics)
         repos ->
  exists docs,
    fst (load_repo_data self w) = Return docs
    /\ Forall2
         (fun repo doc =>
            exists tail,
              page_content doc
              = "Repository Name: " ++ name repo ++ nl ++
                "                    Description: "
                ++ str_of_option (description repo) ++ nl ++
                "                    Primary Language: "
                ++ str_of_option (language repo) ++ nl ++
                "                    Topics:" ++ tail)
         (filter (fun repo => negb (private repo)) repos) docs.
Proof.
  intros Huser Hok. rewrite load_repo_data_run, Huser.
  match goal with
  | |- context [repos_loop self repos [] ?w0] =>
      destruct (repos_loop_returns self repos [] w0 Hok)
        as (docs & w1 & Hloop & _ & Hdocs)
  end.
  rewrite Hloop. exists docs. split; [reflexivity|].
  eapply Forall2_impl; [|exact Hdocs].
  intros repo doc (_ & topics & tail & _ & Hbody).
  rewrite Hbody, strip_core_info.
  eexists. rewrite !append_assoc. reflexivity.
Qed.

End GitHubFacts.

(* --------------------------------------------------------------------- *)
(** ** The Google Drive loader *)

Section DriveFacts.
Import PyStr PyText GoogleDrive.

Variable os : Platform.
Variable self : GoogleDriveLoader.
Variable save_dir : string.

Lemma bind_lift {A B : Type} (o : Outcome A) (k : A -> Py B) (w : World) :
  bind (lift o) k w
  = match o with
    | Return a => k a w
    | Raise e => (Raise e, w)
    end.
Proof. unfold bind, lift. now destruct o. Qed.

Lemma bind_print {B : Type} (line : string) (k : unit -> Py B) (w : World) :
  bind (print line) k w
  = k tt (mkWorld (rag_service_instance w) (Printed line :: trace w)).
Proof. reflexivity. Qed.

Lemma bind_bind {A B C : Type} (m : Py A) (f : A -> Py B) (g : B -> Py C)
    (w : World) :
  bind (bind m f) g w = bind m (fun a => bind (f a) g) w.
Proof. unfold bind. destruct (m w) as [[a|e] w1]; reflexivity. Qed.

Lemma bind_ret {A B : Type} (a : A) (k : A -> Py B) (w : World) :
  bind (ret a) k w = k a w.
Proof. reflexivity. Qed.

(** One round of the loop over the listed files. *)
Lemma items_loop_cons (item : Item) (items : list Item)
    (save_path : option string) (acc : list string) (w : World) :
  items_loop os self save_dir (item :: items) save_path acc w
  = match getitem "id" item, getitem "name" item, getitem "mimeType" item with
    | Raise e, _, _ => (Raise e, w)
    | Return _, Raise e, _ => (Raise e, w)
    | Return _, Return _, Raise e => (Raise e, w)
    | Return file_id, Return file_name, Return mime_type =>
        let w1 := mkWorld (rag_service_instance w)
                    (Printed ("Found document: '" ++ file_name ++ "'...")
                     :: trace w) in
        if String.eqb mime_type "application/pdf" then
          match _download_binary_file os self file_id
                  (path_join save_dir (file_id ++ ".pdf")) w1 with
          | (Raise e, w2) => (Raise e, w2)
          | (Return _, w2) =>
              items_loop os self save_dir items
                (Some (path_join save_dir (file_id ++ ".pdf")))
                (acc ++ [path_join save_dir (file_id ++ ".pdf")])%list w2
          end
        else if String.eqb mime_type "application/vnd.google-apps.document"
        then
          match _export_google_doc os self file_id
                  (path_join save_dir (file_id ++ ".txt")) w1 with
          | (Raise e, w2) => (Raise e, w2)
          | (Return _, w2) =>
              items_loop os self save_dir items
                (Some (path_join save_dir (file_id ++ ".txt")))
                (acc ++ [path_join save_dir (file_id ++ ".txt")])%list w2
          end
        else
          match save_path with
          | None =>
              (Raise (Exception
                        "cannot access local variable 'save_path' where it is not associated with a value"),
               w1)
          | Some path =>
              items_loop os self save_dir items save_path
                (acc ++ [path])%list w1
          end
    end.
Proof.
  cbn [items_loop]. rewrite bind_lift.
  destruct (getitem "id" item) as [file_id|e]; [|reflexivity].
  rewrite bind_lift.
  destruct (getitem "name" item) as [file_name|e]; [|reflexivity].
  rewrite bind_lift.
  destruct (getitem "mimeType" item) as [mime_type|e]; [|reflexivity].
  rewrite bind_print. cbv zeta.
  destruct (String.eqb mime_type "application/pdf").
  - rewrite bind_bind. unfold bind at 1.
    destruct (_download_binary_file os self file_id _ _) as [[[]|e] w2];
      reflexivity.
  - destruct (String.eqb mime_type "application/vnd.google-apps.document").
    + rewrite bind_bind. unfold bind at 1.
      destruct (_export_google_doc os self file_id _ _) as [[[]|e] w2];
        reflexivity.
    + rewrite bind_ret. destruct save_path; reflexivity.
Qed.

Lemma items_loop_paths (listed items : list Item)
    (save_path : option string) (acc paths : list string) (w w' : World) :
  incl items listed ->
  (forall path, save_path = Some path ->
                names_listed_file save_dir listed path) ->
  items_loop os self save_dir items save_path acc w = (Return paths, w') ->
  exists fresh,
    paths = (acc ++ fresh)%list
    /\ List.length fresh = List.length items
    /\ Forall (names_listed_file save_dir listed) fresh.
Proof.
  revert save_path acc w.
  induction items as [|item items IH]; intros save_path acc w Hin Hsp Hrun.
  - injection Hrun as <- _. exists []. rewrite app_nil_r. now repeat split.
  - rewrite items_loop_cons in Hrun.
    assert (Hitem : In item listed) by (apply Hin; now left).
    assert (Hrest : incl items listed)
      by (intros x Hx; apply Hin; now right).
    destruct (getitem "id" item) as [file_id|e] eqn:Hid;
      [|destruct (getitem "name" item), (getitem "mimeType" item);
        discriminate].
    destruct (getitem "name" item) as [file_name|e];
      [|destruct (getitem "mimeType" item); discriminate].
    destruct (getitem "mimeType" item) as [mime_type|e]; [|discriminate].
    cbv zeta in Hrun.
    assert (Hpdf : names_listed_file save_dir listed
                     (path_join save_dir (file_id ++ ".pdf")))
      by (exists item, file_id; auto).
    assert (Htxt : names_listed_file save_dir listed
                     (path_join save_dir (file_id ++ ".txt")))
      by (exists item, file_id; auto).
    destruct (String.eqb mime_type "application/pdf").
    + destruct (_download_binary_file os self file_id _ _) as [[[]|e] w2];
        [|discriminate].
      apply IH in Hrun; [|assumption|intros p Hp; now injection Hp as <-].
      destruct Hrun as (fresh & -> & Hlen & Hall).
      eexists (_ :: fresh). rewrite <- app_assoc. split; [reflexivity|].
      split; [simpl; now rewrite Hlen | now constructor].
    + destruct (String.eqb mime_type "application/vnd.google-apps.document").
      * destruct (_export_google_doc os self file_id _ _) as [[[]|e] w2];
          [|discriminate].
        apply IH in Hrun; [|assumption|intros p Hp; now injection Hp as <-].
        destruct Hrun as (fresh & -> & Hlen & Hall).
        eexists (_ :: fresh). rewrite <- app_assoc. split; [reflexivity|].
        split; [simpl; now rewrite Hlen | now constructor].
      * destruct save_path as [path|]; [|discriminate].
        apply IH in Hrun; [|assumption|assumption].
        destruct Hrun as (fresh & -> & Hlen & Hall).
        eexists (_ :: fresh). rewrite <- app_assoc. split; [reflexivity|].
        split; [simpl; now rewrite Hlen|].
        constructor; [now apply Hsp | assumption].
Qed.

(** [load_documents] after its request for the list of files. *)
Lemma load_documents_run (w : World) :
  fst (load_documents os self save_dir w)
  = match files_list (service self)
            (list_query (folder_id self))
            "files(id, name, mimeType)" with
    | Raise _ | Return None | Return (Some []) => Return []
    | Return (Some (item :: items)) =>
        match mkdir os save_dir with
        | Raise _ => Return []
        | Return _ =>
            match items_loop os self save_dir (item :: items) None [] w with
            | (Return paths, _) => Return paths
            | (Raise _, _) => Return []
            end
        end
    end.
Proof.
  unfold load_documents, try_except. rewrite bind_lift.
  destruct (files_list _ _ _) as [[[|item items]|]|e]; try reflexivity.
  rewrite bind_lift. destruct (mkdir os save_dir) as [[]|e]; [|reflexivity].
  destruct (items_loop os self save_dir (item :: items) None [] w)
    as [[paths|e] w1]; reflexivity.
Qed.

(** X18: whatever [load_documents] returns, each path in it is the data
    directory joined with the id of a listed file and ".pdf" or ".txt",
    and unless the result is empty there is one path per listed file. *)
Theorem load_documents_paths (w : World) (paths : list string) :
  fst (load_documents os self save_dir w) = Return paths ->
  paths = []
  \/ exists items,
       files_list (service self)
         (list_query (folder_id self))
         "files(id, name, mimeType)" = Return (Some items)
       /\ List.length paths = List.length items
       /\ Forall (names_listed_file save_dir items) paths.
Proof.
  rewrite load_documents_run.
  destruct (files_list _ _ _) as [[[|item items]|]|e] eqn:Hlist;
    try (intros H; injection H as <-; now left).
  destruct (mkdir os save_dir) as [[]|e];
    [|intros H; injection H as <-; now left].
  destruct (items_loop os self save_dir (item :: items) None [] w)
    as [[found|e] w1] eqn:Hloop;
    [|intros H; injection H as <-; now left].
  intros H. injection H as <-. right. exists (item :: items).
  split; [reflexivity|].
  apply (items_loop_paths (item :: items)) in Hloop;
    [|apply incl_refl | discriminate].
  destruct Hloop as (fresh & -> & Hlen & Hall). now split.
Qed.

Lemma _download_binary_file_raises (file_id path : string) (e : Exn)
    (w : World) :
  next_chunks EmptyString (fst (get_media (service self) file_id))
    (snd (get_media (service self) file_id)) = Raise e ->
  _download_binary_file os self file_id path w = (Raise e, w).
Proof.
  intros Hfail. unfold _download_binary_file. cbv zeta.
  rewrite bind_lift, Hfail. reflexivity.
Qed.

Lemma items_loop_raises (items : list Item) (save_path : option string)
    (acc : list string) (w : World) :
  Exists (download_fails self) items ->
  exists e w', items_loop os self save_dir items save_path acc w
               = (Raise e, w').
Proof.
  revert save_path acc w.
  induction items as [|item items IH]; intros save_path acc w Hbad;
    [inversion Hbad|].
  rewrite items_loop_cons.
  destruct (getitem "id" item) as [file_id|e] eqn:Hid;
    [|destruct (getitem "name" item), (getitem "mimeType" item); eauto].
  destruct (getitem "name" item) as [file_name|e] eqn:Hname;
    [|destruct (getitem "mimeType" item); eauto].
  destruct (getitem "mimeType" item) as [mime_type|e] eqn:Hmime; [|eauto].
  cbv zeta.
  inversion Hbad as [? ? Hhere|? ? Hlater]; subst.
  - destruct Hhere as (id' & name' & e & Hid' & _ & Hmime' & Hfail).
    rewrite Hid in Hid'. injection Hid' as <-.
    rewrite Hmime in Hmime'. injection Hmime' as ->.
    cbn [String.eqb]. rewrite !Ascii.eqb_refl.
    rewrite (_download_binary_file_raises _ _ e _ Hfail). eauto.
  - destruct (String.eqb mime_type "application/pdf").
    + destruct (_download_binary_file os self file_id _ _) as [[[]|e] w2];
        [now apply IH | eauto].
    + destruct (String.eqb mime_type "application/vnd.google-apps.document").
      * destruct (_export_google_doc os self file_id _ _) as [[[]|e] w2];
          [now apply IH | eauto].
      * destruct save_path; [now apply IH | eauto].
Qed.

(** X19: [load_documents] never raises, and it is all or nothing: it
    returns the empty list when the listing fails or is empty, when the
    data directory cannot be made, and when the download of one listed PDF
    breaks off, also when files listed before it were saved. *)
Theorem load_documents_all_or_nothing (w : World) :
  (exists paths, fst (load_documents os self save_dir w) = Return paths)
  /\ (forall items,
        files_list (service self)
          (list_query (folder_id self))
          "files(id, name, mimeType)" = Return (Some items) ->
        (exists e, mkdir os save_dir = Raise e)
        \/ Exists (download_fails self) items ->
        fst (load_documents os self save_dir w) = Return [])
  /\ (files_list (service self) (list_query (folder_id self))
        "files(id, name, mimeType)" = Return None
      \/ files_list (service self) (list_query (folder_id self))
           "files(id, name, mimeType)" = Return (Some [])
      \/ (exists e,
            files_list (service self) (list_query (folder_id self))
              "files(id, name, mimeType)" = Raise e) ->
      fst (load_documents os self save_dir w) = Return []).
Proof.
  rewrite load_documents_run. repeat split.
  - destruct (files_list _ _ _) as [[[|item items]|]|e]; eauto.
    destruct (mkdir os save_dir) as [[]|e]; eauto.
    destruct (items_loop os self save_dir (item :: items) None [] w)
      as [[paths|e] w1]; eauto.
  - intros items Hlist Hbad. rewrite Hlist.
    destruct items as [|item items]; [reflexivity|].
    destruct (mkdir os save_dir) as [[]|e] eqn:Hmk; [|reflexivity].
    destruct Hbad as [[e He]|Hbad]; [discriminate|].
    destruct (items_loop_raises (item :: items) None [] w Hbad)
      as (e & w' & Hraise).
    now rewrite Hraise.
  - intros [Hlist|[Hlist|[e Hlist]]]; now rewrite Hlist.
Qed.

End DriveFacts.

(* --------------------------------------------------------------------- *)
(** ** The start of the application *)

Section StartupFacts.
Import PyStr PyText Main.

Variable site : Deployment.
Variable embed : list Event -> string -> Outcome Vector.

Lemma docs_loop_filter (github_docs personal project : list Document) :
  docs_loop github_docs personal project
  = ((personal ++ filter is_self github_docs)%list,
     (project ++ filter (fun doc => negb (is_self doc)) github_docs)%list).
Proof.
  revert personal project.
  induction github_docs as [|doc docs IH]; intros personal project.
  - now rewrite !app_nil_r.
  - cbn [docs_loop filter].
    destruct (is_self doc); cbn [negb]; rewrite IH;
      now rewrite <- app_assoc.
Qed.

Lemma Forall2_filter {A B : Type} (R : A -> B -> Prop)
    (p : A -> bool) (q : B -> bool) (l1 : list A) (l2 : list B) :
  Forall2 R l1 l2 -> (forall a b, R a b -> p a = q b) ->
  Forall2 R (filter p l1) (filter q l2).
Proof.
  intros HR Hpq. induction HR as [|a b l1 l2 Hab _ IH]; [constructor|].
  cbn [filter]. rewrite (Hpq a b Hab).
  destruct (q b); [now constructor | exact IH].
Qed.

(** X20: with no Drive folder configured and without both a GitHub token
    and a user name, the application starts on two empty collections:
    [lifespan] raises nothing, whatever the embedder would do, and leaves
    both stores null. *)
Theorem lifespan_without_sources (w : World) :
  env_truthy (getenv site "GOOGLE_DRIVE_CV_FOLDER_ID") = false ->
  env_truthy (getenv site "GITHUB_ACCESS_TOKEN")
  && env_truthy (getenv site "GITHUB_USERNAME") = false ->
  fst (lifespan site embed w) = Return tt
  /\ rag_service_instance (snd (lifespan site embed w))
     = mkRAGService None None.
Proof.
  intros Hdrive Hgithub. unfold lifespan.
  rewrite !bind_print. cbv zeta. rewrite Hdrive, bind_ret, bind_print.
  rewrite Hgithub, bind_ret, bind_print. cbn [fst snd].
  rewrite build_knowledge_bases_run. split; reflexivity.
Qed.

(** X21: with a Drive folder configured, a missing credentials file or a
    client that cannot be built stops the start: [lifespan] raises, after
    its two opening lines, before GitHub is asked and before anything is
    built, and the stores stay as they were. *)
Theorem lifespan_stopped_by_drive_credentials (w : World) :
  env_truthy (getenv site "GOOGLE_DRIVE_CV_FOLDER_ID") = true ->
  (GoogleDrive.creds_exist (platform site) = false ->
   lifespan site embed w
   = (Raise (Exception
               ("Google credentials file not found at "
                ++ GoogleDrive.GOOGLE_CREDS_PATH (platform site) ++ ".")),
      Main.after_phase_1 w))
  /\ (forall e,
        GoogleDrive.creds_exist (platform site) = true ->
        GoogleDrive.connect (platform site) = Raise e ->
        lifespan site embed w = (Raise e, Main.after_phase_1 w)).
Proof.
  intros Hdrive.
  assert (Hid : truthy (env_value (getenv site "GOOGLE_DRIVE_CV_FOLDER_ID"))
                = true).
  { destruct (getenv site "GOOGLE_DRIVE_CV_FOLDER_ID"); [exact Hdrive|].
    discriminate. }
  split.
  - intros Hcreds. unfold lifespan. rewrite !bind_print. cbv zeta.
    rewrite Hdrive. unfold GoogleDrive.GoogleDriveLoader__init__.
    rewrite Hid. cbn [negb]. unfold GoogleDrive._authenticate.
    rewrite Hcreds. reflexivity.
  - intros e Hcreds Hconnect. unfold lifespan. rewrite !bind_print.
    cbv zeta. rewrite Hdrive. unfold GoogleDrive.GoogleDriveLoader__init__.
    rewrite Hid. cbn [negb]. unfold GoogleDrive._authenticate.
    rewrite Hcreds. cbn [negb].
    rewrite !bind_bind, bind_lift, Hconnect. reflexivity.
Qed.

(** X22: with GitHub alone configured, a listing that succeeds and
    topics that can be fetched, [lifespan] ends in the build of two
    collections that separate the repositories: the personal collection
    holds the documents of the public repositories whose name is the
    non-empty SELF_REPO_NAME, the project collection those of the other
    public repositories, both in the order of the listing. *)
Theorem lifespan_separates_self_repository
    (w : World) (token user : string) (repos : list GitHub.Repository) :
  env_truthy (getenv site "GOOGLE_DRIVE_CV_FOLDER_ID") = false ->
  getenv site "GITHUB_ACCESS_TOKEN" = Some token -> truthy token = true ->
  getenv site "GITHUB_USERNAME" = Some user -> truthy user = true ->
  Github site token user = Return (repos, None) ->
  Forall (fun repo => GitHub.private repo = true
                      \/ exists topics,
                           GitHub.get_topics repo = Return topics) repos ->
  exists personal project w1,
    lifespan site embed w = build_knowledge_bases embed personal project w1
    /\ Forall2
         (fun repo doc =>
            metadata_get "repo_name" (metadata doc) = Some (GitHub.name repo))
         (filter (fun repo =>
                    negb (GitHub.private repo)
                    && GitHub.is_self_repo (github_loader_of site token user) repo)
                 repos)
         personal
    /\ Forall2
         (fun repo doc =>
            metadata_get "repo_name" (metadata doc) = Some (GitHub.name repo))
         (filter (fun repo =>
                    negb (GitHub.private repo)
                    && negb (GitHub.is_self_repo (github_loader_of site token user)
                               repo))
                 repos)
         project.
Proof.
  intros Hdrive Htoken Htok Huser Husr Hlist Hok.
  unfold lifespan. rewrite !bind_print. cbv zeta.
  rewrite Hdrive, bind_ret, bind_print, Htoken, Huser.
  cbn [env_truthy env_value]. rewrite Htok, Husr. cbn [andb].
  unfold GitHub.GitHubLoader__init__. rewrite Htok, Husr. cbn [negb orb].
  rewrite !bind_bind, bind_ret, bind_bind.
  fold (github_loader_of site token user).
  set (loader (* *) := github_loader_of site token user).
  set (w0 := mkWorld _ _).
  pose proof (load_repo_data_run loader w0) as Hrun.
  change (GitHub.github loader (GitHub.username loader))
    with (Github site token user) in Hrun.
  rewrite Hlist in Hrun.
  match type of Hrun with
  | context [GitHub.repos_loop loader repos [] ?w'] =>
      destruct (repos_loop_returns loader repos [] w' Hok)
        as (docs & w2 & Hloop & _ & Hdocs)
  end.
  rewrite Hloop in Hrun.
  unfold bind at 1.
  destruct (GitHub.load_repo_data loader w0) as [outcome w3].
  cbn [fst] in Hrun. subst outcome.
  rewrite bind_ret, bind_print, docs_loop_filter. cbn [fst snd List.app].
  do 3 eexists. split; [reflexivity|].
  assert (Hself : forall repo doc,
             (metadata doc
              = [("source", if GitHub.is_self_repo loader repo then "self"
                            else "github_project");
                 ("repo_name", GitHub.name repo);
                 ("url", GitHub.html_url repo)]
              /\ exists topics tail,
                   GitHub.get_topics repo = Return topics
                   /\ page_content doc
                      = strip (GitHub.core_info repo topics) ++ tail) ->
             is_self doc = GitHub.is_self_repo loader repo
             /\ metadata_get "repo_name" (metadata doc)
                = Some (GitHub.name repo)).
  { intros repo doc [Hmeta _]. unfold is_self. rewrite Hmeta.
    destruct (GitHub.is_self_repo loader repo); now split. }
  assert (Hnames : Forall2
            (fun repo doc =>
               is_self doc = GitHub.is_self_repo loader repo
               /\ metadata_get "repo_name" (metadata doc)
                  = Some (GitHub.name repo))
            (filter (fun repo => negb (GitHub.private repo)) repos) docs).
  { eapply Forall2_impl; [|exact Hdocs]. exact Hself. }
  assert (Hsplit : forall (keep : bool -> bool),
             Forall2
               (fun repo doc =>
                  metadata_get "repo_name" (metadata doc)
                  = Some (GitHub.name repo))
               (filter (fun repo =>
                          negb (GitHub.private repo)
                          && keep (GitHub.is_self_repo loader repo)) repos)
               (filter (fun doc => keep (is_self doc)) docs)).
  { intros keep.
    assert (Hf : forall l,
               filter (fun repo =>
                         negb (GitHub.private repo)
                         && keep (GitHub.is_self_repo loader repo)) l
               = filter (fun repo => keep (GitHub.is_self_repo loader repo))
                   (filter (fun repo => negb (GitHub.private repo)) l)).
    { induction l as [|r l IHl]; [reflexivity|]. cbn [filter].
      destruct (negb (GitHub.private r)); cbn [andb filter];
        now rewrite IHl. }
    rewrite Hf.
    eapply Forall2_impl;
      [| apply (Forall2_filter _
                  (fun repo => keep (GitHub.is_self_repo loader repo))
                  (fun doc => keep (is_self doc)) _ _ Hnames) ].
    - now intros repo doc [_ Hname].
    - intros repo doc [Heq _]. now rewrite Heq. }
  split.
  - exact (Hsplit (fun b => b)).
  - exact (Hsplit negb).
Qed.

End StartupFacts.

(* --------------------------------------------------------------------- *)
(** ** From the saved files to their loaders *)

Section SavedFiles.
Import PyStr PyText GoogleDrive Main.

Lemma rfind_app_found (c : ascii) (s t : string) :
  rfind c t = None -> rfind c (s ++ String c t) = Some (String.length s).
Proof.
  intros Ht. induction s as [|a s IH]; cbn [append rfind String.length].
  - now rewrite Ht, Ascii.eqb_refl.
  - now rewrite IH.
Qed.

Lemma rfind_app_none (c : ascii) (s t : string) :
  rfind c s = None -> rfind c t = None -> rfind c (s ++ t) = None.
Proof.
  intros Hs Ht. induction s as [|a s IH]; [exact Ht|].
  cbn [append rfind] in *.
  destruct (rfind c s); [discriminate|]. rewrite (IH eq_refl).
  destruct (Ascii.eqb a c); [discriminate | reflexivity].
Qed.

Lemma drop_length_append (s t : string) : drop (String.length s) (s ++ t) = t.
Proof. induction s as [|a s IH]; [now destruct t | exact IH]. Qed.

Lemma drop_past_separator (s t : string) (c : ascii) :
  drop (S (String.length s)) (s ++ String c t) = t.
Proof. induction s as [|a s IH]; [now destruct t | exact IH]. Qed.

Lemma length_append (s t : string) :
  String.length (s ++ t) = String.length s + String.length t.
Proof. induction s as [|a s IH]; simpl; congruence. Qed.

(** The suffix of a file saved under a plain, non-empty id. *)
Lemma suffix_saved (save_dir file_id extension : string) :
  file_id <> EmptyString -> rfind "/" file_id = None ->
  extension = "pdf" \/ extension = "txt" ->
  suffix (path_join save_dir (file_id ++ String "." extension))
  = String "." extension.
Proof.
  intros Hid Hslash Hext.
  assert (Hplain : rfind "/" extension = None /\ rfind "." extension = None
                   /\ String.length extension = 3)
    by (destruct Hext as [-> | ->]; now repeat split).
  destruct Hplain as (Hes & Hed & Hel).
  unfold suffix, path_name, path_join.
  change (save_dir ++ "/" ++ file_id ++ String "." extension)
    with (save_dir ++ String "/" (file_id ++ String "." extension)).
  rewrite rfind_app_found.
  2:{ apply rfind_app_none; [exact Hslash|].
      cbn [rfind]. now rewrite Hes. }
  rewrite drop_past_separator, (rfind_app_found _ _ _ Hed).
  rewrite length_append. cbn [String.length]. rewrite Hel.
  assert (Hpos : 0 < String.length file_id)
    by (destruct file_id; [congruence | simpl; lia]).
  destruct (Nat.ltb_spec 0 (String.length file_id)); [|lia].
  destruct (Nat.ltb_spec (String.length file_id)
              (String.length file_id + 4 - 1)); [|lia].
  cbn [andb]. apply drop_length_append.
Qed.

(** X23: a file that [load_documents] saved under a plain id (not empty,
    without '/') is read back at the start: the loop over the saved paths
    hands a ".pdf" path to the PDF loader and a ".txt" path to the text
    loader, and never skips it; when the loader raises, so does the
    loop. *)
Theorem paths_loop_reads_saved_file
    (site : Deployment) (items : list Item) (path : string)
    (paths : list string) (acc : list Document) (w : World) :
  names_listed_file (DATA_DIR site) items path ->
  (forall item file_id,
     In item items -> getitem "id" item = Return file_id ->
     file_id <> EmptyString /\ rfind "/" file_id = None) ->
  exists load,
    (load = PyMuPDFLoader_load site /\ suffix path = ".pdf"
     \/ load = TextLoader_load site /\ suffix path = ".txt")
    /\ paths_loop site (path :: paths) acc w
       = match load path with
         | Return docs => paths_loop site paths (acc ++ docs)%list w
         | Raise e => (Raise e, w)
         end.
Proof.
  intros (item & file_id & Hitem & Hid & Hpath) Hplain.
  destruct (Hplain item file_id Hitem Hid) as [Hne Hslash].
  destruct Hpath as [-> | ->].
  - exists (PyMuPDFLoader_load site).
    rewrite (suffix_saved _ _ "pdf" Hne Hslash (or_introl eq_refl)).
    split; [now left|].
    cbn [paths_loop].
    rewrite (suffix_saved _ _ "pdf" Hne Hslash (or_introl eq_refl)).
    cbn [String.eqb]. rewrite !Ascii.eqb_refl. apply bind_lift.
  - exists (TextLoader_load site).
    rewrite (suffix_saved _ _ "txt" Hne Hslash (or_intror eq_refl)).
    split; [now right|].
    cbn [paths_loop].
    rewrite (suffix_saved _ _ "txt" Hne Hslash (or_intror eq_refl)).
    replace (String.eqb ".txt" ".pdf") with false by reflexivity.
    replace (String.eqb ".txt" ".txt") with true by reflexivity.
    apply bind_lift.
Qed.

End SavedFiles.

(* --------------------------------------------------------------------- *)
(** ** The properties at work on the samples *)

Lemma process_chat_message_uses_project_store_witness :
  exists history,
    fst (process_chat_message (Samples.llm_says "PROJECT_INFO")
           Samples.embed_length (mkChatRequest "Which repos?")
           MoreSamples.both_built)
    = match Samples.llm_says "PROJECT_INFO" history None
              (PROMPT_TEMPLATE
                 (PyStr.join (PyStr.nl ++ PyStr.nl)
                    (map page_content
                       (VectorIndex.similarity_search_by_vector
                          (Samples.one Samples.repo) [inject_Z 12] 4)))
                 "Which repos?")
      with
      | Return text => Return (mkChatResponse text)
      | Raise _ =>
          Return (mkChatResponse
                    "Sorry, I encountered an error. Please try again.")
      end.
Proof.
  apply (process_chat_message_uses_project_store
           (Samples.llm_says "PROJECT_INFO") Samples.embed_length
           (mkChatRequest "Which repos?") MoreSamples.both_built
           "PROJECT_INFO" (Samples.one Samples.repo) [inject_Z 12]);
    reflexivity.
Defined.



Lemma sample_repositories_fetched :
  Forall (fun repo => GitHub.private repo = true
                      \/ exists topics,
                           GitHub.get_topics repo = Return topics)
         [MoreSamples.repo_proxy; MoreSamples.repo_secret;
          MoreSamples.repo_portfolio].
Proof.
  constructor; [right; eexists; reflexivity|].
  constructor; [left; reflexivity|].
  constructor; [right; eexists; reflexivity|].
  constructor.
Defined.

Lemma load_repo_data_documents_witness :
  exists docs,
    fst (GitHub.load_repo_data MoreSamples.loader initial_world) = Return docs
    /\ Forall2
         (fun repo doc =>
            metadata doc
            = [("source", if GitHub.is_self_repo MoreSamples.loader repo
                          then "self" else "github_project");
               ("repo_name", GitHub.name repo);
               ("url", GitHub.html_url repo)])
         [MoreSamples.repo_proxy; MoreSamples.repo_portfolio] docs.
Proof.
  exact (load_repo_data_documents MoreSamples.loader initial_world
           [MoreSamples.repo_proxy; MoreSamples.repo_secret;
            MoreSamples.repo_portfolio]
           eq_refl sample_repositories_fetched).
Defined.

Lemma load_repo_data_bodies_witness :
  exists docs,
    fst (GitHub.load_repo_data MoreSamples.loader initial_world) = Return docs
    /\ Forall2
         (fun repo doc =>
            exists tail,
              page_content doc
              = "Repository Name: " ++ GitHub.name repo ++ PyStr.nl ++
                "                    Description: "
                ++ PyText.str_of_option (GitHub.description repo)
                ++ PyStr.nl ++
                "                    Primary Language: "
                ++ PyText.str_of_option (GitHub.language repo)
                ++ PyStr.nl ++
                "                    Topics:" ++ tail)
         [MoreSamples.repo_proxy; MoreSamples.repo_portfolio] docs.
Proof.
  exact (load_repo_data_bodies MoreSamples.loader initial_world
           [MoreSamples.repo_proxy; MoreSamples.repo_secret;
            MoreSamples.repo_portfolio]
           eq_refl sample_repositories_fetched).
Defined.

Lemma load_documents_paths_witness :
  ["/srv/data/1a.pdf"; "/srv/data/2b.txt"] = []
  \/ exists items,
       GoogleDrive.files_list (GoogleDrive.service MoreSamples.drive_loader)
         (GoogleDrive.list_query
            (GoogleDrive.folder_id MoreSamples.drive_loader))
         "files(id, name, mimeType)" = Return (Some items)
       /\ List.length ["/srv/data/1a.pdf"; "/srv/data/2b.txt"]
          = List.length items
       /\ Forall (GoogleDrive.names_listed_file "/srv/data" items)
            ["/srv/data/1a.pdf"; "/srv/data/2b.txt"].
Proof.
  apply (load_documents_paths (MoreSamples.disk true)
           MoreSamples.drive_loader "/srv/data" initial_world
           ["/srv/data/1a.pdf"; "/srv/data/2b.txt"]).
  reflexivity.
Defined.

Lemma lifespan_without_sources_witness :
  fst (Main.lifespan (MoreSamples.site [] true) Samples.embed_length
         initial_world) = Return tt
  /\ rag_service_instance
       (snd (Main.lifespan (MoreSamples.site [] true) Samples.embed_length
               initial_world))
     = mkRAGService None None.
Proof.
  apply (lifespan_without_sources (MoreSamples.site [] true)
           Samples.embed_length initial_world); reflexivity.
Defined.

Lemma lifespan_stopped_by_drive_credentials_witness :
  Main.lifespan (MoreSamples.site MoreSamples.drive_only false)
    Samples.embed_length initial_world
  = (Raise (Exception
              "Google credentials file not found at /srv/google_credentials.json."),
     Main.after_phase_1 initial_world).
Proof.
  refine (proj1 (lifespan_stopped_by_drive_credentials
                   (MoreSamples.site MoreSamples.drive_only false)
                   Samples.embed_length initial_world _) _);
    reflexivity.
Defined.

Lemma lifespan_separates_self_repository_witness :
  exists personal project w1,
    Main.lifespan (MoreSamples.site MoreSamples.github_only true)
      Samples.embed_length initial_world
    = build_knowledge_bases Samples.embed_length personal project w1
    /\ Forall2
         (fun repo doc =>
            Main.metadata_get "repo_name" (metadata doc)
            = Some (GitHub.name repo))
         [MoreSamples.repo_portfolio] personal
    /\ Forall2
         (fun repo doc =>
            Main.metadata_get "repo_name" (metadata doc)
            = Some (GitHub.name repo))
         [MoreSamples.repo_proxy] project.
Proof.
  exact (lifespan_separates_self_repository
           (MoreSamples.site MoreSamples.github_only true)
           Samples.embed_length initial_world "token" "alyyan"
           [MoreSamples.repo_proxy; MoreSamples.repo_secret;
            MoreSamples.repo_portfolio]
           eq_refl eq_refl eq_refl eq_refl eq_refl eq_refl
           sample_repositories_fetched).
Defined.

Lemma sample_ids_plain :
  forall item file_id,
    In item [MoreSamples.pdf_item; MoreSamples.doc_item] ->
    GoogleDrive.getitem "id" item = Return file_id ->
    file_id <> EmptyString /\ GoogleDrive.rfind "/" file_id = None.
Proof.
  intros item file_id [<-|[<-|[]]] Hid; injection Hid as <-;
    (split; [discriminate | reflexivity]).
Defined.

Lemma paths_loop_reads_saved_file_witness :
  exists load,
    (load = Main.PyMuPDFLoader_load (MoreSamples.site [] true)
     /\ GoogleDrive.suffix "/srv/data/2b.txt" = ".pdf"
     \/ load = Main.TextLoader_load (MoreSamples.site [] true)
        /\ GoogleDrive.suffix "/srv/data/2b.txt" = ".txt")
    /\ Main.paths_loop (MoreSamples.site [] true) ["/srv/data/2b.txt"] []
         initial_world
       = match load "/srv/data/2b.txt" with
         | Return docs =>
             Main.paths_loop (MoreSamples.site [] true) [] ([] ++ docs)%list
               initial_world
         | Raise e => (Raise e, initial_world)
         end.
Proof.
  apply (paths_loop_reads_saved_file (MoreSamples.site [] true)
           [MoreSamples.pdf_item; MoreSamples.doc_item]
           "/srv/data/2b.txt" [] [] initial_world).
  - exists MoreSamples.doc_item, "2b". split; [right; now left|].
    split; [reflexivity | now right].
  - exact sample_ids_plain.
Defined.
